(** * A QuickBooks proxy: token store, API client and request handlers

    Shallow embedding of [main.py].  The program is glue around JSON
    values, so the development starts from the Python objects that
    [json.loads] produces and the dictionary and attribute operations the
    handlers apply to them, then the text codec used by the token file,
    then the handlers as computations over an explicit world (the token
    file and the log of outbound HTTP calls).

    Data domain.  A Python [str] is a Rocq [string] whose characters are
    the code points below 256; a JSON number is an integer.  Python floats
    are not represented: no handler computes with a number. *)

From Stdlib Require Import ZArith NArith Ascii String List Bool Lia.
From Stdlib Require Import Decimal DecimalFacts DecimalN.
From stdpp Require Import base tactics option list strings.
Import ListNotations.

Local Open Scope string_scope.
Local Open Scope Z_scope.
Local Open Scope list_scope.

(** ** Python values that come out of [json.loads] *)

#[local] Unset Elimination Schemes.

Inductive json : Type :=
| JNull
| JBool (b : bool)
| JNum (n : Z)
| JStr (s : string)
| JArr (xs : list json)
| JObj (kvs : list (string * json)).

#[local] Set Elimination Schemes.

(** Induction on a value, with the hypothesis for every element of a list
    and every value of a dict. *)
Section json_ind.

Variable P : json -> Prop.
Hypothesis Hnull : P JNull.
Hypothesis Hbool : forall b, P (JBool b).
Hypothesis Hnum : forall n, P (JNum n).
Hypothesis Hstr : forall s, P (JStr s).
Hypothesis Harr : forall xs, Forall P xs -> P (JArr xs).
Hypothesis Hobj : forall kvs, Forall (fun kv => P (snd kv)) kvs -> P (JObj kvs).

Fixpoint json_ind (v : json) : P v :=
  match v with
  | JNull => Hnull
  | JBool b => Hbool b
  | JNum n => Hnum n
  | JStr s => Hstr s
  | JArr xs =>
      Harr xs (list_ind (Forall P) (Forall_nil_2 P)
                 (fun x l IH => Forall_cons_2 P x l (json_ind x) IH) xs)
  | JObj kvs =>
      Hobj kvs (list_ind (Forall (fun kv => P (snd kv))) (Forall_nil_2 _)
                  (fun kv l IH => Forall_cons_2 _ kv l (json_ind (snd kv)) IH) kvs)
  end.

End json_ind.

(** A [dict] with [str] keys, in insertion order. *)
Abbreviation dict := (list (string * json)).

(** Exceptions the handlers can end with. *)
Inductive exn : Type :=
| KeyError
| TypeError
| AttributeError
| JSONDecodeError
| RequestValidationError.

Inductive Res (A : Type) : Type :=
| Ok (a : A)
| Raise (e : exn).
Arguments Ok {A} a.
Arguments Raise {A} e.

#[global] Instance Res_ret : MRet Res := fun A a => Ok a.
#[global] Instance Res_bind : MBind Res := fun A B f m =>
  match m with
  | Ok a => f a
  | Raise e => Raise e
  end.

Fixpoint mapR {A B : Type} (f : A -> Res B) (l : list A) : Res (list B) :=
  match l with
  | [] => Ok []
  | x :: l' => y ← f x; ys ← mapR f l'; Ok (y :: ys)
  end.

(** *** Dictionaries *)

Fixpoint dict_lookup {V : Type} (k : string) (d : list (string * V)) : option V :=
  match d with
  | [] => None
  | (k', v) :: d' => if String.eqb k k' then Some v else dict_lookup k d'
  end.

(** [d[k] = v]: an existing key keeps its place, a new key goes last. *)
Fixpoint dict_set {V : Type} (k : string) (v : V) (d : list (string * V))
  : list (string * V) :=
  match d with
  | [] => [(k, v)]
  | (k', v') :: d' =>
      if String.eqb k k' then (k', v) :: d' else (k', v') :: dict_set k v d'
  end.

Definition keys {V : Type} (d : list (string * V)) : list string := map fst d.

Fixpoint distinct (l : list string) : bool :=
  match l with
  | [] => true
  | k :: l' => negb (existsb (String.eqb k) l') && distinct l'
  end.

(** The invariant of a Python dict: no key occurs twice, at any depth. *)
Fixpoint wf (v : json) : bool :=
  match v with
  | JArr xs => forallb wf xs
  | JObj kvs => distinct (keys kvs) && forallb (fun '(_, x) => wf x) kvs
  | _ => true
  end.

(** *** Truth value, [or], [in], iteration, subscripts, [.get] *)

Definition truthy (v : json) : bool :=
  match v with
  | JNull => false
  | JBool b => b
  | JNum n => negb (n =? 0)
  | JStr s => negb (String.eqb s EmptyString)
  | JArr xs => match xs with [] => false | _ => true end
  | JObj kvs => match kvs with [] => false | _ => true end
  end.

Definition py_or (a b : json) : json := if truthy a then a else b.

(** ["k" == x] for a [str] constant ["k"]: only an equal [str] is equal. *)
Definition str_eqb (k : string) (x : json) : bool :=
  match x with
  | JStr s => String.eqb k s
  | _ => false
  end.

(** Values that can be dictionary keys; lists and dicts cannot. *)
Definition hashable (v : json) : bool :=
  match v with
  | JArr _ | JObj _ => false
  | _ => true
  end.

(** [==] between hashable values, with [True == 1] and [False == 0]. *)
Definition key_eqb (a b : json) : bool :=
  match a, b with
  | JNull, JNull => true
  | JBool x, JBool y => Bool.eqb x y
  | JBool x, JNum n | JNum n, JBool x => n =? (if x then 1 else 0)
  | JNum n, JNum m => n =? m
  | JStr s, JStr t => String.eqb s t
  | _, _ => false
  end.

Fixpoint is_prefix (p s : string) : bool :=
  match p, s with
  | EmptyString, _ => true
  | String a p', String b s' => Ascii.eqb a b && is_prefix p' s'
  | String _ _, EmptyString => false
  end.

Fixpoint is_substring (p s : string) : bool :=
  is_prefix p s ||
  match s with
  | EmptyString => false
  | String _ s' => is_substring p s'
  end.

(** ["k" in o] for a [str] constant ["k"]. *)
Definition py_in (k : string) (o : json) : Res bool :=
  match o with
  | JObj d => Ok (bool_decide (is_Some (dict_lookup k d)))
  | JArr xs => Ok (existsb (str_eqb k) xs)
  | JStr s => Ok (is_substring k s)
  | _ => Raise TypeError
  end.

Fixpoint chars (s : string) : list json :=
  match s with
  | EmptyString => []
  | String c s' => JStr (String c EmptyString) :: chars s'
  end.

(** What [for x in o] ranges over. *)
Definition py_iter (o : json) : Res (list json) :=
  match o with
  | JArr xs => Ok xs
  | JObj d => Ok (map (fun kv => JStr (fst kv)) d)
  | JStr s => Ok (chars s)
  | _ => Raise TypeError
  end.

(** [o["k"]] *)
Definition getitem (o : json) (k : string) : Res json :=
  match o with
  | JObj d => match dict_lookup k d with Some v => Ok v | None => Raise KeyError end
  | _ => Raise TypeError
  end.

(** [o["k"] = v] *)
Definition setitem (o : json) (k : string) (v : json) : Res json :=
  match o with
  | JObj d => Ok (JObj (dict_set k v d))
  | _ => Raise TypeError
  end.

(** [o.get("k", default)]; [o.get("k")] is [get o "k" JNull]. *)
Definition get (o : json) (k : string) (default : json) : Res json :=
  match o with
  | JObj d => Ok (from_option id default (dict_lookup k d))
  | _ => Raise AttributeError
  end.

(** ** The text codec of the [json] module

    [dumps] is [json.dumps] with its default arguments ([ensure_ascii],
    separators [", "] and [": "]); [loads] is [json.loads]. *)

Definition dquote : ascii := "034"%char.
Definition backslash : ascii := "092"%char.

Definition hex_digit (n : N) : ascii :=
  match n with
  | 0 => "0" | 1 => "1" | 2 => "2" | 3 => "3" | 4 => "4" | 5 => "5"
  | 6 => "6" | 7 => "7" | 8 => "8" | 9 => "9" | 10 => "a" | 11 => "b"
  | 12 => "c" | 13 => "d" | 14 => "e" | _ => "f"
  end%N%char.

(** One character of a string literal: the short escapes, the printable
    ASCII characters as they are, everything else as [\u00xx]. *)
Definition escape_char (c : ascii) : string :=
  let n := N_of_ascii c in
  if (n =? 34)%N then String backslash (String dquote EmptyString)
  else if (n =? 92)%N then String backslash (String backslash EmptyString)
  else if (n =? 8)%N then String backslash "b"
  else if (n =? 12)%N then String backslash "f"
  else if (n =? 10)%N then String backslash "n"
  else if (n =? 13)%N then String backslash "r"
  else if (n =? 9)%N then String backslash "t"
  else if ((32 <=? n) && (n <=? 126))%N then String c EmptyString
  else String backslash
         (String "u" (String "0" (String "0"
            (String (hex_digit (n / 16)) (String (hex_digit (n mod 16)) EmptyString))))).

Fixpoint escape (s : string) : string :=
  match s with
  | EmptyString => EmptyString
  | String c s' => escape_char c +:+ escape s'
  end.

Definition quote (s : string) : string :=
  String dquote (escape s +:+ String dquote EmptyString).

Fixpoint digits (d : uint) : string :=
  match d with
  | Nil => EmptyString
  | D0 d => String "0" (digits d)
  | D1 d => String "1" (digits d)
  | D2 d => String "2" (digits d)
  | D3 d => String "3" (digits d)
  | D4 d => String "4" (digits d)
  | D5 d => String "5" (digits d)
  | D6 d => String "6" (digits d)
  | D7 d => String "7" (digits d)
  | D8 d => String "8" (digits d)
  | D9 d => String "9" (digits d)
  end.

(** [str(n)] for an [int]. *)
Definition int_str (n : Z) : string :=
  match n with
  | Zneg p => String "-" (digits (N.to_uint (Npos p)))
  | _ => digits (N.to_uint (Z.to_N n))
  end.

(** [sep.join(l)] *)
Fixpoint join (sep : string) (l : list string) : string :=
  match l with
  | [] => EmptyString
  | [x] => x
  | x :: l' => x +:+ sep +:+ join sep l'
  end.

Fixpoint dumps (v : json) : string :=
  match v with
  | JNull => "null"
  | JBool true => "true"
  | JBool false => "false"
  | JNum n => int_str n
  | JStr s => quote s
  | JArr xs => "[" +:+ join ", " (map dumps xs) +:+ "]"
  | JObj kvs =>
      "{" +:+ join ", " (map (fun '(k, x) => quote k +:+ ": " +:+ dumps x) kvs) +:+ "}"
  end.

Definition is_ws (c : ascii) : bool :=
  let n := N_of_ascii c in
  ((n =? 32) || (n =? 9) || (n =? 10) || (n =? 13))%N.

Fixpoint skip_ws (s : string) : string :=
  match s with
  | String c s' => if is_ws c then skip_ws s' else s
  | EmptyString => s
  end.

(** [s] without its prefix [p], when it starts with [p]. *)
Fixpoint strip (p s : string) : option string :=
  match p, s with
  | EmptyString, _ => Some s
  | String a p', String b s' => if Ascii.eqb a b then strip p' s' else None
  | String _ _, EmptyString => None
  end.

Definition hex_value (c : ascii) : option N :=
  let n := N_of_ascii c in
  if ((48 <=? n) && (n <=? 57))%N then Some (n - 48)%N
  else if ((97 <=? n) && (n <=? 102))%N then Some (n - 87)%N
  else if ((65 <=? n) && (n <=? 70))%N then Some (n - 55)%N
  else None.

(** The character a short escape stands for. *)
Definition unescape (c : ascii) : option ascii :=
  let n := N_of_ascii c in
  if (n =? 34)%N then Some dquote
  else if (n =? 92)%N then Some backslash
  else if (n =? 47)%N then Some "/"%char
  else if (n =? 98)%N then Some "008"%char
  else if (n =? 102)%N then Some "012"%char
  else if (n =? 110)%N then Some "010"%char
  else if (n =? 114)%N then Some "013"%char
  else if (n =? 116)%N then Some "009"%char
  else None.

(** The rest of a string literal after its opening quote.  A raw control
    character is refused; a [\u] escape of a code point from 256 on is
    outside the data domain. *)
Fixpoint read_string (s : string) : option (string * string) :=
  match s with
  | EmptyString => None
  | String c s' =>
      if Ascii.eqb c dquote then Some (EmptyString, s')
      else if Ascii.eqb c backslash then
        match s' with
        | String e s'' =>
            match unescape e with
            | Some c' => '(t, r) ← read_string s''; Some (String c' t, r)
            | None =>
                if Ascii.eqb e "u" then
                  match s'' with
                  | String h1 (String h2 (String h3 (String h4 s3))) =>
                      a ← hex_value h1; b ← hex_value h2;
                      c ← hex_value h3; d ← hex_value h4;
                      let n := (((a * 16 + b) * 16 + c) * 16 + d)%N in
                      if (n <? 256)%N
                      then '(t, r) ← read_string s3; Some (String (ascii_of_N n) t, r)
                      else None
                  | _ => None
                  end
                else None
            end
        | EmptyString => None
        end
      else if (N_of_ascii c <? 32)%N then None
      else '(t, r) ← read_string s'; Some (String c t, r)
  end.

Definition digit_of_char (c : ascii) : option (uint -> uint) :=
  match N_of_ascii c with
  | 48 => Some D0 | 49 => Some D1 | 50 => Some D2 | 51 => Some D3
  | 52 => Some D4 | 53 => Some D5 | 54 => Some D6 | 55 => Some D7
  | 56 => Some D8 | 57 => Some D9 | _ => None
  end%N.

(** The longest run of decimal digits at the head of [s]. *)
Fixpoint read_digits (s : string) : uint * string :=
  match s with
  | String c s' =>
      match digit_of_char c with
      | Some mk => let '(d, r) := read_digits s' in (mk d, r)
      | None => (Nil, s)
      end
  | EmptyString => (Nil, s)
  end.

(** [0] or a run that starts with a digit from 1 to 9. *)
Definition no_leading_zero (d : uint) : bool :=
  match d with
  | Nil => false
  | D0 Nil => true
  | D0 _ => false
  | _ => true
  end.

(** Does a fraction or an exponent follow?  Then the number is a float. *)
Definition float_follows (s : string) : bool :=
  match s with
  | String c _ =>
      let n := N_of_ascii c in ((n =? 46) || (n =? 101) || (n =? 69))%N
  | EmptyString => false
  end.

Definition read_int (s : string) : option (Z * string) :=
  let '(neg, s1) :=
    match s with
    | String c s' => if Ascii.eqb c "-" then (true, s') else (false, s)
    | EmptyString => (false, s)
    end in
  let '(d, r) := read_digits s1 in
  if no_leading_zero d && negb (float_follows r) then
    let n := Z.of_N (N.of_uint d) in
    Some (if neg then - n else n, r)
  else None.

(** [dict(pairs)]: a repeated key keeps its first place and its last value. *)
Definition dict_of_pairs (pairs : dict) : dict :=
  fold_left (fun d kv => dict_set (fst kv) (snd kv) d) pairs [].

Fixpoint read_value (fuel : nat) (s : string) : option (json * string) :=
  match fuel with
  | O => None
  | S fuel =>
      match s with
      | EmptyString => None
      | String c s' =>
          if Ascii.eqb c "n" then r ← strip "ull" s'; Some (JNull, r)
          else if Ascii.eqb c "t" then r ← strip "rue" s'; Some (JBool true, r)
          else if Ascii.eqb c "f" then r ← strip "alse" s'; Some (JBool false, r)
          else if Ascii.eqb c dquote then
            '(t, r) ← read_string s'; Some (JStr t, r)
          else if Ascii.eqb c "[" then
            match skip_ws s' with
            | String c1 r1 =>
                if Ascii.eqb c1 "]" then Some (JArr [], r1)
                else '(xs, r) ← read_items fuel (String c1 r1); Some (JArr xs, r)
            | EmptyString => None
            end
          else if Ascii.eqb c "{" then
            match skip_ws s' with
            | String c1 r1 =>
                if Ascii.eqb c1 "}" then Some (JObj [], r1)
                else '(kvs, r) ← read_members fuel (String c1 r1);
                     Some (JObj (dict_of_pairs kvs), r)
            | EmptyString => None
            end
          else '(n, r) ← read_int s; Some (JNum n, r)
      end
  end
with read_items (fuel : nat) (s : string) : option (list json * string) :=
  match fuel with
  | O => None
  | S fuel =>
      '(x, s1) ← read_value fuel s;
      match skip_ws s1 with
      | String c s2 =>
          if Ascii.eqb c "," then
            '(xs, r) ← read_items fuel (skip_ws s2); Some (x :: xs, r)
          else if Ascii.eqb c "]" then Some ([x], s2)
          else None
      | EmptyString => None
      end
  end
with read_members (fuel : nat) (s : string) : option (dict * string) :=
  match fuel with
  | O => None
  | S fuel =>
      match s with
      | String q s0 =>
          if Ascii.eqb q dquote then
            '(k, s1) ← read_string s0;
            match skip_ws s1 with
            | String c s2 =>
                if Ascii.eqb c ":" then
                  '(x, s3) ← read_value fuel (skip_ws s2);
                  match skip_ws s3 with
                  | String c' s4 =>
                      if Ascii.eqb c' "," then
                        '(kvs, r) ← read_members fuel (skip_ws s4);
                        Some ((k, x) :: kvs, r)
                      else if Ascii.eqb c' "}" then Some ([(k, x)], s4)
                      else None
                  | EmptyString => None
                  end
                else None
            | EmptyString => None
            end
          else None
      | EmptyString => None
      end
  end.

Definition loads (s : string) : option json :=
  '(v, r) ← read_value (S (String.length s)) (skip_ws s);
  match skip_ws r with
  | EmptyString => Some v
  | String _ _ => None
  end.

(** [loads] is run on texts, never unfolded on a text that is not known. *)
#[global] Arguments loads : simpl never.

(** ** The world around the handlers *)

(** The process environment, read with [os.getenv]. *)
Record Env : Type := {
  CLIENT_ID : option string;
  CLIENT_SECRET : option string;
  REDIRECT_URI : option string;
  QBO_BASE : option string;
  COMPANY_ID : option string;
  REFRESH_TOKEN : option string
}.

(** [os.getenv] gives [None] or a [str]. *)
Definition getenv (x : option string) : json :=
  match x with
  | Some s => JStr s
  | None => JNull
  end.

(** [str(x)] of such a value, as an f-string formats it. *)
Definition env_str (x : option string) : string :=
  match x with
  | Some s => s
  | None => "None"
  end.

(** An f-string, piece by piece.  A replacement field that holds a value
    read from the token file is kept as that value; the base64 text of a
    string is kept as that string. *)
Inductive piece : Type :=
| Lit (s : string)
| Fmt (v : json)
| Base64 (s : string).

Abbreviation fstring := (list piece).

Inductive method : Type := GET | POST.

Inductive Body : Type :=
| NoBody
| Data (s : string)
| Form (fields : list (string * string))
| Json (v : json).

Record Request : Type := {
  meth : method;
  url : fstring;
  headers : list (string * fstring);
  body : Body
}.

Record Response : Type := {
  status_code : Z;
  text : string
}.

(** [response.json()] *)
Definition response_json (r : Response) : Res json :=
  match loads (text r) with
  | Some v => Ok v
  | None => Raise JSONDecodeError
  end.

(** The token file, absent or with its text, and the outbound calls made
    so far, oldest first. *)
Record World : Type := {
  tokens_file : option string;
  calls : list Request
}.

(** The world after one more outbound call. *)
Definition after_call (w : World) (r : Request) : World :=
  {| tokens_file := tokens_file w; calls := calls w ++ [r] |}.

Definition M (A : Type) : Type := World -> Res A * World.

#[global] Instance M_ret : MRet M := fun A a w => (Ok a, w).
#[global] Instance M_bind : MBind M := fun A B f m w =>
  match m w with
  | (Ok a, w') => f a w'
  | (Raise e, w') => (Raise e, w')
  end.

Definition lift {A : Type} (r : Res A) : M A := fun w => (r, w).

(** *** Token store *)

Definition save_tokens (tokens : json) : M unit := fun w =>
  (Ok tt, {| tokens_file := Some (dumps tokens); calls := calls w |}).

Definition load_tokens : M json := fun w =>
  match tokens_file w with
  | Some s =>
      match loads s with
      | Some v => (Ok v, w)
      | None => (Raise JSONDecodeError, w)
      end
  | None => (Ok (JObj []), w)
  end.

(** *** Handlers of the data the upstream service returns *)

Definition extract_customer_fields (cust : json) : Res json :=
  a ← get cust "Id" JNull;
  b ← get cust "DisplayName" JNull;
  c ← get cust "PrimaryEmailAddr" JNull;
  d ← get cust "PrimaryPhone" JNull;
  e ← get cust "CompanyName" JNull;
  f ← get cust "Balance" JNull;
  Ok (JObj [("Id", a); ("DisplayName", b); ("PrimaryEmailAddr", c);
            ("PrimaryPhone", d); ("CompanyName", e); ("Balance", f)]).

Definition extract_invoice_fields (inv : json) : Res json :=
  a ← get inv "Id" JNull;
  b ← get inv "DocNumber" JNull;
  c ← get inv "CustomerRef" JNull;
  d ← get inv "BillEmail" JNull;
  e ← get inv "TxnDate" JNull;
  f ← get inv "DueDate" JNull;
  g ← get inv "Line" JNull;
  h ← get inv "TxnTaxDetail" JNull;
  i ← get inv "TotalAmt" JNull;
  j ← get inv "Balance" JNull;
  Ok (JObj [("Id", a); ("DocNumber", b); ("CustomerRef", c); ("BillEmail", d);
            ("TxnDate", e); ("DueDate", f); ("Line", g); ("TxnTaxDetail", h);
            ("TotalAmt", i); ("Balance", j)]).

Definition extract_item_fields (item : json) : Res json :=
  a ← get item "Id" JNull;
  b ← get item "Name" JNull;
  c ← get item "Sku" JNull;
  d ← get item "QtyOnHand" JNull;
  e ← get item "UnitPrice" JNull;
  f ← get item "Type" JNull;
  g ← get item "Active" JNull;
  Ok (JObj [("Id", a); ("Name", b); ("Sku", c); ("QtyOnHand", d);
            ("UnitPrice", e); ("Type", f); ("Active", g)]).

(** [customer_map]: a dict whose keys are the customers' ids. *)
Abbreviation kmap := (list (json * json)).

Fixpoint kmap_lookup (k : json) (m : kmap) : option json :=
  match m with
  | [] => None
  | (k', v) :: m' => if key_eqb k k' then Some v else kmap_lookup k m'
  end.

Fixpoint kmap_set (k v : json) (m : kmap) : kmap :=
  match m with
  | [] => [(k, v)]
  | (k', v') :: m' =>
      if key_eqb k k' then (k', v) :: m' else (k', v') :: kmap_set k v m'
  end.

(** [m.get(k, default)]: the key is hashed first. *)
Definition kmap_get (m : kmap) (k default : json) : Res json :=
  if hashable k then Ok (from_option id default (kmap_lookup k m))
  else Raise TypeError.

(** [{c["Id"]: c for c in customers}] *)
Fixpoint build_customer_map (customers : list json) (m : kmap) : Res kmap :=
  match customers with
  | [] => Ok m
  | c :: rest =>
      k ← getitem c "Id";
      if hashable k then build_customer_map rest (kmap_set k c m)
      else Raise TypeError
  end.

(** ["k" in inv and inv["k"]], as the condition of an [if]. *)
Definition present (inv : json) (k : string) : Res bool :=
  b ← py_in k inv;
  if b : bool then v ← getitem inv k; Ok (truthy v) else Ok false.

(** Lines 208 to 214: the location of sale of an invoice. *)
Definition location_of_sale (inv : json) : Res json :=
  ship ← present inv "ShipAddr";
  if ship : bool then a ← getitem inv "ShipAddr"; get a "City" JNull
  else
    loc ← present inv "LocationRef";
    if loc : bool then a ← getitem inv "LocationRef"; get a "name" JNull
    else
      term ← present inv "SalesTermRef";
      if term : bool then a ← getitem inv "SalesTermRef"; get a "name" JNull
      else Ok JNull.

(** Lines 218 to 225: one line item of an invoice. *)
Definition invoice_line (line : json) : Res json :=
  detail ← get line "SalesItemLineDetail" (JObj []);
  ty ← get line "DetailType" JNull;
  item ← get detail "ItemRef" (JObj []);
  name ← get item "name" JNull;
  qty ← get detail "Qty" JNull;
  rate ← get detail "UnitPrice" JNull;
  amount ← get line "Amount" JNull;
  Ok (JObj [("type", ty); ("name", name); ("qty", qty); ("rate", rate);
            ("amount", amount)]).

(** Lines 204 to 235: the entry the loop appends for one invoice. *)
Definition invoice_entry (customer_map : kmap) (inv : json) : Res json :=
  cust_ref ← get inv "CustomerRef" (JObj []);
  cust_id ← get cust_ref "value" JNull;
  customer ← kmap_get customer_map cust_id (JObj []);
  location ← location_of_sale inv;
  lines ← get inv "Line" (JArr []);
  lines ← py_iter lines;
  invoice_lines ← mapR invoice_line lines;
  name ← get customer "DisplayName" JNull;
  addr ← get customer "PrimaryEmailAddr" (JObj []);
  email ← get addr "Address" JNull;
  date ← get inv "TxnDate" JNull;
  due ← get inv "DueDate" JNull;
  no ← get inv "DocNumber" JNull;
  Ok (JObj [("customer", name); ("customer_email", email);
            ("invoice_date", date); ("invoice_due_date", due);
            ("location_of_sale", location); ("invoice_no", no);
            ("lines", JArr invoice_lines)]).

(** ** API client and request handlers *)

Record QuickBooksClient : Type := {
  access_token : json;
  realm_id : json;
  base_url : string
}.

Definition client_headers (qb : QuickBooksClient) (accept : string)
  : list (string * fstring) :=
  [("Authorization", [Lit "Bearer "; Fmt (access_token qb)]);
   ("Content-Type", [Lit "application/text"]);
   ("Accept", [Lit accept])].

Definition query_request (qb : QuickBooksClient) (query_str : string) : Request :=
  {| meth := POST;
     url := [Lit (base_url qb); Lit "/"; Fmt (realm_id qb); Lit "/query"];
     headers := client_headers qb "application/json";
     body := Data query_str |}.

Definition company_info_request (qb : QuickBooksClient) : Request :=
  {| meth := GET;
     url := [Lit (base_url qb); Lit "/"; Fmt (realm_id qb);
             Lit "/companyinfo/"; Fmt (realm_id qb)];
     headers := client_headers qb "application/json";
     body := NoBody |}.

Definition invoice_request (qb : QuickBooksClient) (payload : json) : Request :=
  {| meth := POST;
     url := [Lit "https://sandbox-quickbooks.api.intuit.com/v3/company/";
             Fmt (realm_id qb); Lit "/invoice"];
     headers := dict_set "Content-Type" [Lit "application/json"]
                  (client_headers qb "application/json");
     body := Json payload |}.

(** The literal of the source, byte for byte as the file has it. *)
Definition not_authenticated : json :=
  JObj [("error", JStr "No autenticado. Usa /connect y asegúrate de tener realmId")].

Definition error_body (r : Response) : json :=
  JObj [("error", JStr (text r))].

(** The request body of [POST /create-invoice] after validation. *)
Record InvoiceLineDetail : Type := {
  Amount : Z;
  DetailType : string;
  SalesItemLineDetail : option dict
}.

Record InvoiceCreateModel : Type := {
  CustomerRef : dict;
  Line : list InvoiceLineDetail;
  BillEmail : option dict;
  TxnDate : option string;
  DueDate : option string
}.

(** A field declared [Optional[...]]: absent or [null] is [None]. *)
Definition optional {A : Type} (read : json -> option A) (o : option json)
  : option (option A) :=
  match o with
  | None | Some JNull => Some None
  | Some v => x ← read v; Some (Some x)
  end.

Definition as_dict (v : json) : option dict :=
  match v with JObj d => Some d | _ => None end.

Definition as_str (v : json) : option string :=
  match v with JStr s => Some s | _ => None end.

Definition as_number (v : json) : option Z :=
  match v with JNum n => Some n | _ => None end.

Definition validate_line (v : json) : option InvoiceLineDetail :=
  d ← as_dict v;
  amount ← dict_lookup "Amount" d ≫= as_number;
  detail_type ← dict_lookup "DetailType" d ≫= as_str;
  detail ← optional as_dict (dict_lookup "SalesItemLineDetail" d);
  Some {| Amount := amount; DetailType := detail_type;
          SalesItemLineDetail := detail |}.

Definition as_list (v : json) : option (list json) :=
  match v with JArr xs => Some xs | _ => None end.

(** The check of a request body against [InvoiceCreateModel], by the
    declared type of each field: a required field must be there with a
    value of its type, an optional one may be absent or [null], other
    keys are ignored.  The conversions pydantic adds on top (a numeric
    string taken as an [Amount]) are left out: a value is of its type or
    refused. *)
Definition validate (payload : json) : option InvoiceCreateModel :=
  d ← as_dict payload;
  customer_ref ← dict_lookup "CustomerRef" d ≫= as_dict;
  lines ← dict_lookup "Line" d ≫= as_list;
  lines ← mapM validate_line lines;
  bill_email ← optional as_dict (dict_lookup "BillEmail" d);
  txn_date ← optional as_str (dict_lookup "TxnDate" d);
  due_date ← optional as_str (dict_lookup "DueDate" d);
  Some {| CustomerRef := customer_ref; Line := lines; BillEmail := bill_email;
          TxnDate := txn_date; DueDate := due_date |}.

(** A field of [.dict(exclude_none=True)]: left out when it is [None]. *)
Definition field {A : Type} (k : string) (to : A -> json) (x : option A) : dict :=
  match x with
  | Some a => [(k, to a)]
  | None => []
  end.

Definition line_dict (l : InvoiceLineDetail) : json :=
  JObj ([("Amount", JNum (Amount l)); ("DetailType", JStr (DetailType l))]
        ++ field "SalesItemLineDetail" JObj (SalesItemLineDetail l)).

(** [invoice_data.dict(exclude_none=True)] *)
Definition model_dict (m : InvoiceCreateModel) : json :=
  JObj ([("CustomerRef", JObj (CustomerRef m));
         ("Line", JArr (map line_dict (Line m)))]
        ++ field "BillEmail" JObj (BillEmail m)
        ++ field "TxnDate" JStr (TxnDate m)
        ++ field "DueDate" JStr (DueDate m)).

Section Handlers.

(** The environment of the process and the two services it talks to: the
    answer to a call may depend on the calls made before it. *)
Variable env : Env.
Variable service : list Request -> Request -> Response.

(** [requests.get] and [requests.post]: one outbound call, which is logged
    and answered.  A call that ends with a network error instead of a
    response is not modelled. *)
Definition http (r : Request) : M Response := fun w =>
  (Ok (service (calls w) r), after_call w r).

Definition query (qb : QuickBooksClient) (query_str : string) : M Response :=
  http (query_request qb query_str).

Definition get_company_info (qb : QuickBooksClient) : M Response :=
  http (company_info_request qb).

Definition get_qb_client : M (option QuickBooksClient) :=
  tokens ← load_tokens;
  token ← lift (get tokens "access_token" JNull);
  stored ← lift (get tokens "realmId" JNull);
  let realm := py_or stored (getenv (COMPANY_ID env)) in
  if negb (truthy token) || negb (truthy realm) then mret None
  else mret (Some {| access_token := token; realm_id := realm;
                     base_url := "https://sandbox-quickbooks.api.intuit.com/v3/company" |}).

(** [GET /customer-info] *)
Definition customer_info : M json :=
  qb ← get_qb_client;
  match qb with
  | None => mret not_authenticated
  | Some qb =>
      response ← get_company_info qb;
      data ← (if status_code response =? 200
              then lift (response_json response)
              else mret (JStr (text response)));
      mret (JObj [("status_code", JNum (status_code response)); ("data", data)])
  end.

Definition refresh_request (refresh_token : string) : Request :=
  {| meth := POST;
     url := [Lit "https://oauth.platform.intuit.com/oauth2/v1/tokens/bearer"];
     headers :=
       [("Accept", [Lit "application/json"]);
        ("Content-Type", [Lit "application/x-www-form-urlencoded"]);
        ("Authorization",
         [Lit "Basic ";
          Base64 (env_str (CLIENT_ID env) +:+ ":" +:+ env_str (CLIENT_SECRET env))])];
     body := Form [("grant_type", "refresh_token");
                   ("refresh_token", refresh_token)] |}.

(** [GET /refresh] *)
Definition refresh_access_token : M json :=
  match REFRESH_TOKEN env with
  | None | Some EmptyString =>
      mret (JObj [("error", JStr "No hay refresh_token en el entorno")])
  | Some refresh_token =>
      response ← http (refresh_request refresh_token);
      if negb (status_code response =? 200) then mret (error_body response)
      else
        tokens ← lift (response_json response);
        old_tokens ← load_tokens;
        has_realm ← lift (py_in "realmId" old_tokens);
        tokens ← (if has_realm : bool
                  then realm ← lift (getitem old_tokens "realmId");
                       lift (setitem tokens "realmId" realm)
                  else mret tokens);
        _ ← save_tokens tokens;
        mret (JObj [("success", JBool true); ("tokens", tokens)])
  end.

(** [GET /customers] *)
Definition get_customers : M json :=
  qb ← get_qb_client;
  match qb with
  | None => mret not_authenticated
  | Some qb =>
      response ← query qb "SELECT * FROM Customer";
      if negb (status_code response =? 200) then mret (error_body response)
      else
        data ← lift (response_json response);
        customers ← lift (get data "QueryResponse" (JObj [])
                          ≫= fun qr => get qr "Customer" (JArr []));
        customers ← lift (py_iter customers);
        filtered_customers ← lift (mapR extract_customer_fields customers);
        mret (JObj [("customers", JArr filtered_customers)])
  end.

(** [GET /invoices] *)
Definition get_invoices : M json :=
  qb ← get_qb_client;
  match qb with
  | None => mret not_authenticated
  | Some qb =>
      response ← query qb "SELECT * FROM Invoice";
      if negb (status_code response =? 200) then mret (error_body response)
      else
        data ← lift (response_json response);
        invoices ← lift (get data "QueryResponse" (JObj [])
                         ≫= fun qr => get qr "Invoice" (JArr []));
        invoices ← lift (py_iter invoices);
        filtered_invoices ← lift (mapR extract_invoice_fields invoices);
        mret (JObj [("invoices", JArr filtered_invoices)])
  end.

(** [GET /customer-invoices] *)
Definition customer_invoices : M json :=
  qb ← get_qb_client;
  match qb with
  | None => mret not_authenticated
  | Some qb =>
      cust_resp ← query qb "SELECT Id, DisplayName, PrimaryEmailAddr FROM Customer";
      if negb (status_code cust_resp =? 200) then mret (error_body cust_resp)
      else
        data ← lift (response_json cust_resp);
        customers ← lift (get data "QueryResponse" (JObj [])
                          ≫= fun qr => get qr "Customer" (JArr []));
        customers ← lift (py_iter customers);
        customer_map ← lift (build_customer_map customers []);
        inv_resp ← query qb "SELECT * FROM Invoice";
        if negb (status_code inv_resp =? 200) then mret (error_body inv_resp)
        else
          data ← lift (response_json inv_resp);
          invoices ← lift (get data "QueryResponse" (JObj [])
                           ≫= fun qr => get qr "Invoice" (JArr []));
          invoices ← lift (py_iter invoices);
          result ← lift (mapR (invoice_entry customer_map) invoices);
          mret (JObj [("customer_invoices", JArr result)])
  end.

(** The body of [create_invoice], which FastAPI calls with the validated
    model. *)
Definition create_invoice (invoice_data : InvoiceCreateModel) : M json :=
  qb ← get_qb_client;
  match qb with
  | None => mret not_authenticated
  | Some qb =>
      response ← http (invoice_request qb (model_dict invoice_data));
      if negb ((status_code response =? 200) || (status_code response =? 201))
      then mret (error_body response)
      else lift (response_json response)
  end.

(** [POST /create-invoice]: the request body is checked against the
    declared model before the handler runs. *)
Definition create_invoice_endpoint (payload : json) : M json :=
  match validate payload with
  | Some invoice_data => create_invoice invoice_data
  | None => lift (Raise RequestValidationError)
  end.

(** [GET /inventory] *)
Definition get_inventory : M json :=
  qb ← get_qb_client;
  match qb with
  | None => mret not_authenticated
  | Some qb =>
      response ← query qb "SELECT * FROM Item WHERE Type = 'Inventory'";
      if negb (status_code response =? 200) then mret (error_body response)
      else
        data ← lift (response_json response);
        items ← lift (get data "QueryResponse" (JObj [])
                      ≫= fun qr => get qr "Item" (JArr []));
        items ← lift (py_iter items);
        filtered_items ← lift (mapR extract_item_fields items);
        mret (JObj [("inventory", JArr filtered_items)])
  end.

End Handlers.

(** ** Vocabulary of the statements about the handlers *)

(** The list a handler iterates over: what a query response holds for an
    entity under [QueryResponse]. *)
Definition query_result (r : Response) (entity : string) : Res (list json) :=
  data ← response_json r;
  qr ← get data "QueryResponse" (JObj []);
  xs ← get qr entity (JArr []);
  py_iter xs.

Definition raises {A : Type} (r : Res A) : Prop := exists e, r = Raise e.

Definition customer_keys : list string :=
  ["Id"; "DisplayName"; "PrimaryEmailAddr"; "PrimaryPhone"; "CompanyName"; "Balance"].

Definition invoice_keys : list string :=
  ["Id"; "DocNumber"; "CustomerRef"; "BillEmail"; "TxnDate"; "DueDate"; "Line";
   "TxnTaxDetail"; "TotalAmt"; "Balance"].

Definition item_keys : list string :=
  ["Id"; "Name"; "Sku"; "QtyOnHand"; "UnitPrice"; "Type"; "Active"].

(** [o] is the projection of the record [d] on the keys [ks]: an object
    with exactly these keys, in this order, each with the record's value
    or [null], and no other key. *)
Definition projection_of (ks : list string) (d : dict) (o : json) : Prop :=
  exists out, o = JObj out /\ keys out = ks /\
    (forall k, k ∈ ks -> dict_lookup k out = Some (from_option id JNull (dict_lookup k d))) /\
    (forall k, k ∉ ks -> dict_lookup k out = None).

Definition project (ks : list string) (d : dict) : json :=
  JObj (map (fun k => (k, from_option id JNull (dict_lookup k d))) ks).

(** The condition ["k" in inv and inv["k"]] on a dict. *)
Definition holds (d : dict) (k : string) : bool :=
  from_option truthy false (dict_lookup k d).

(** [d[k1][k2]] when both are there, else [null]. *)
Definition nested (d : dict) (k1 k2 : string) : json :=
  match dict_lookup k1 d with
  | Some (JObj a) => from_option id JNull (dict_lookup k2 a)
  | _ => JNull
  end.

(** The location of sale as the specification words it: the first non-empty
    value among the ship-to city, the location name and the sales-term name,
    else [null]. *)
Definition first_non_empty_location (d : dict) : json :=
  from_option id JNull
    (find truthy [nested d "ShipAddr" "City"; nested d "LocationRef" "name";
                  nested d "SalesTermRef" "name"]).

(** A line item whose nested objects are absent or objects. *)
Definition line_shape_ok (l : dict) : bool :=
  match dict_lookup "SalesItemLineDetail" l with
  | None => true
  | Some (JObj detail) =>
      match dict_lookup "ItemRef" detail with
      | None | Some (JObj _) => true
      | Some _ => false
      end
  | Some _ => false
  end.

(** The projection of such a line item, absent parts as [null]. *)
Definition line_projection (l : dict) : json :=
  JObj [("type", from_option id JNull (dict_lookup "DetailType" l));
        ("name", match dict_lookup "SalesItemLineDetail" l with
                 | Some (JObj detail) => nested detail "ItemRef" "name"
                 | _ => JNull
                 end);
        ("qty", nested l "SalesItemLineDetail" "Qty");
        ("rate", nested l "SalesItemLineDetail" "UnitPrice");
        ("amount", from_option id JNull (dict_lookup "Amount" l))].

(** A request body that lacks a required field of [InvoiceCreateModel]. *)
Definition lacks_required (d : dict) : Prop :=
  dict_lookup "CustomerRef" d = None \/
  dict_lookup "Line" d = None \/
  exists lines l, dict_lookup "Line" d = Some (JArr lines) /\ JObj l ∈ lines /\
    (dict_lookup "Amount" l = None \/ dict_lookup "DetailType" l = None).

(** The invoice's customer is found and its [PrimaryEmailAddr] is there
    with the value [null]. *)
Definition null_email_match (customer_map : kmap) (inv : dict) : Prop :=
  exists ref cust_id c,
    dict_lookup "CustomerRef" inv = Some (JObj ref) /\
    dict_lookup "value" ref = Some cust_id /\ hashable cust_id = true /\
    kmap_lookup cust_id customer_map = Some (JObj c) /\
    dict_lookup "PrimaryEmailAddr" c = Some JNull.

(** The invoice has a line item whose [SalesItemLineDetail] is there with
    the value [null]. *)
Definition null_line_detail (inv : dict) : Prop :=
  exists lines l,
    get (JObj inv) "Line" (JArr []) ≫= py_iter = Ok lines /\
    JObj l ∈ lines /\ dict_lookup "SalesItemLineDetail" l = Some JNull.

(** ** Sample data *)

Definition sample_env : Env :=
  {| CLIENT_ID := Some "client"; CLIENT_SECRET := Some "secret";
     REDIRECT_URI := None; QBO_BASE := None;
     COMPANY_ID := Some "9130"; REFRESH_TOKEN := Some "rt-1" |}.

(** An upstream that answers each kind of call with a fixed response. *)
Record Upstream : Type := {
  on_refresh : Response;
  on_company : Response;
  on_customers : Response;
  on_invoices : Response;
  on_items : Response;
  on_create : Response
}.

Definition serve (u : Upstream) (history : list Request) (r : Request) : Response :=
  match body r with
  | Form _ => on_refresh u
  | NoBody => on_company u
  | Json _ => on_create u
  | Data q =>
      if is_substring "FROM Customer" q then on_customers u
      else if is_substring "FROM Invoice" q then on_invoices u
      else on_items u
  end.

Definition ok (v : json) : Response := {| status_code := 200; text := dumps v |}.

Definition failure : Response := {| status_code := 500; text := "boom" |}.

Definition sample_customers : json :=
  JObj [("QueryResponse", JObj [("Customer", JArr [
    JObj [("Id", JStr "1"); ("DisplayName", JStr "Ana");
          ("PrimaryEmailAddr", JObj [("Address", JStr "ana@example.com")]);
          ("Foo", JStr "bar")];
    JObj [("Id", JStr "2"); ("DisplayName", JStr "Luis"); ("Balance", JNum 40)]])])].

Definition sample_invoices : json :=
  JObj [("QueryResponse", JObj [("Invoice", JArr [
    JObj [("Id", JStr "10"); ("DocNumber", JStr "1001");
          ("CustomerRef", JObj [("value", JStr "1")]);
          ("ShipAddr", JObj [("City", JStr "X")]);
          ("LocationRef", JObj [("name", JStr "Y")]);
          ("Line", JArr [JObj [("DetailType", JStr "SalesItemLineDetail");
                               ("Amount", JNum 100);
                               ("SalesItemLineDetail",
                                JObj [("ItemRef", JObj [("name", JStr "Hours")]);
                                      ("Qty", JNum 2); ("UnitPrice", JNum 50)])]])];
    JObj [("Id", JStr "11"); ("DocNumber", JStr "1002");
          ("CustomerRef", JObj [("value", JStr "404")]);
          ("SalesTermRef", JObj [("name", JStr "Z")]);
          ("Line", JArr [JObj [("DetailType", JStr "SubTotalLineDetail");
                               ("Amount", JNum 7)]])]])])].

Definition sample_items : json :=
  JObj [("QueryResponse", JObj [("Item", JArr [
    JObj [("Id", JStr "3"); ("Name", JStr "Hours"); ("Type", JStr "Inventory");
          ("QtyOnHand", JNum 5); ("Level", JNum 1)]])])].

Definition sample_upstream : Upstream :=
  {| on_refresh := ok (JObj [("access_token", JStr "new")]);
     on_company := ok (JObj [("CompanyInfo", JObj [("CompanyName", JStr "Acme")])]);
     on_customers := ok sample_customers;
     on_invoices := ok sample_invoices;
     on_items := ok sample_items;
     on_create := {| status_code := 201;
                     text := dumps (JObj [("Invoice", JObj [("Id", JStr "12")])]) |} |}.

(** The store before any refresh, with a record, and with a record that
    never recorded a realm. *)
Definition no_tokens : World := {| tokens_file := None; calls := [] |}.

Definition stored (record : json) : World :=
  {| tokens_file := Some (dumps record); calls := [] |}.

Definition with_realm : json :=
  JObj [("realmId", JStr "123"); ("access_token", JStr "old")].

Definition without_realm : json := JObj [("access_token", JStr "old")].

Definition sample_model : InvoiceCreateModel :=
  {| CustomerRef := [("value", JStr "1")];
     Line := [{| Amount := 100; DetailType := "SalesItemLineDetail";
                 SalesItemLineDetail := Some [("ItemRef", JObj [("value", JStr "3")])] |}];
     BillEmail := None; TxnDate := None; DueDate := None |}.

Definition sample_client : QuickBooksClient :=
  {| access_token := JStr "old"; realm_id := JStr "123";
     base_url := "https://sandbox-quickbooks.api.intuit.com/v3/company" |}.

Definition with_lists (customers invoices : list json) : Upstream :=
  {| on_refresh := failure; on_company := failure;
     on_customers := ok (JObj [("QueryResponse", JObj [("Customer", JArr customers)])]);
     on_invoices := ok (JObj [("QueryResponse", JObj [("Invoice", JArr invoices)])]);
     on_items := failure; on_create := failure |}.

(** A customer whose [Id] is [null], and an invoice without [CustomerRef]. *)
Definition ghost_upstream : Upstream :=
  with_lists [JObj [("Id", JNull); ("DisplayName", JStr "Ghost")]]
             [JObj [("DocNumber", JStr "1")]].

Definition no_id_upstream : Upstream :=
  with_lists [JObj [("DisplayName", JStr "Ana")]] [].

Definition null_email_upstream : Upstream :=
  with_lists [JObj [("Id", JStr "1"); ("DisplayName", JStr "Ana");
                    ("PrimaryEmailAddr", JNull)]]
             [JObj [("CustomerRef", JObj [("value", JStr "1")])]].

Definition null_detail_upstream : Upstream :=
  with_lists [JObj [("Id", JStr "1"); ("DisplayName", JStr "Ana")]]
             [JObj [("CustomerRef", JObj [("value", JStr "404")]);
                    ("Line", JArr [JObj [("SalesItemLineDetail", JNull)]])]].

(** An invoice with a ship-to address that has no city, and a location. *)
Definition no_city_invoice : dict :=
  [("ShipAddr", JObj [("Line1", JStr "1 Main St")]);
   ("LocationRef", JObj [("name", JStr "Y")])].

Definition sample_customer_records : list dict :=
  [[("Id", JStr "1"); ("DisplayName", JStr "Ana");
    ("PrimaryEmailAddr", JObj [("Address", JStr "ana@example.com")]);
    ("Foo", JStr "bar")];
   [("Id", JStr "2"); ("DisplayName", JStr "Luis"); ("Balance", JNum 40)]].

(** ** Vocabulary of the statements about effects *)

(** A computation that leaves the token file as it is and appends at most
    [n] calls to the log. *)
Definition footprint {A : Type} (n : nat) (m : M A) : Prop :=
  forall w,
    tokens_file (snd (m w)) = tokens_file w /\
    exists new, calls (snd (m w)) = calls w ++ new /\ (List.length new <= n)%nat.

(** Lines 115 and 116: the stored realm put into the new tokens. *)
Definition merge_realm (old_tokens tokens : json) : Res json :=
  has_realm ← py_in "realmId" old_tokens;
  if has_realm : bool
  then realm ← getitem old_tokens "realmId"; setitem tokens "realmId" realm
  else Ok tokens.

(** A request as the client sends it: with the bearer token, asking for
    JSON, to a URL that names the client's realm. *)
Definition sent_by (qb : QuickBooksClient) (r : Request) : Prop :=
  dict_lookup "Authorization" (headers r) = Some [Lit "Bearer "; Fmt (access_token qb)] /\
  dict_lookup "Accept" (headers r) = Some [Lit "application/json"] /\
  Fmt (realm_id qb) ∈ url r.


(** A customer record the lookup can take: an object with a hashable [Id]. *)
Definition customer_ok (c : json) : bool :=
  match c with
  | JObj d => from_option hashable false (dict_lookup "Id" d)
  | _ => false
  end.

(** The last customer of a list whose [Id] equals [k]. *)
Fixpoint last_with_id (k : json) (customers : list json) : option json :=
  match customers with
  | [] => None
  | c :: rest =>
      match last_with_id k rest with
      | Some c' => Some c'
      | None =>
          match getitem c "Id" with
          | Ok k' => if key_eqb k k' then Some c else None
          | Raise _ => None
          end
      end
  end.



(** The keys of an entry of the joined view and of one of its lines. *)
Definition entry_keys : list string :=
  ["customer"; "customer_email"; "invoice_date"; "invoice_due_date";
   "location_of_sale"; "invoice_no"; "lines"].

Definition line_keys : list string := ["type"; "name"; "qty"; "rate"; "amount"].

(** An object with exactly the keys [ks], in this order. *)
Definition has_keys (ks : list string) (o : json) : Prop :=
  exists d, o = JObj d /\ keys d = ks.

(** Every character is a printable ASCII character. *)
Fixpoint printable (s : string) : bool :=
  match s with
  | EmptyString => true
  | String c s' =>
      ((32 <=? N_of_ascii c) && (N_of_ascii c <=? 126))%N && printable s'
  end.


(** ** More sample data *)

(** An upstream that is down, one whose invoices query fails, one without
    results, and one that answers with a page of HTML. *)
Definition down_upstream : Upstream :=
  {| on_refresh := failure; on_company := failure; on_customers := failure;
     on_invoices := failure; on_items := failure; on_create := failure |}.

Definition invoices_down_upstream : Upstream :=
  {| on_refresh := failure; on_company := failure;
     on_customers := ok sample_customers;
     on_invoices := failure; on_items := failure; on_create := failure |}.




(** A customers list with a value that is not an object. *)
Definition mixed_upstream : Upstream :=
  with_lists [JObj [("Id", JStr "1")]; JStr "2"] [JNum 7].



(** Two customers with the same id: the second replaces the first. *)
Definition twin_customers : list json :=
  [JObj [("Id", JStr "1"); ("DisplayName", JStr "Ana")];
   JObj [("Id", JStr "2"); ("DisplayName", JStr "Luis")];
   JObj [("Id", JStr "1"); ("DisplayName", JStr "Ana Maria")]].



(** An environment without refresh token, and one of another company. *)
Definition no_refresh_env : Env :=
  {| CLIENT_ID := Some "client"; CLIENT_SECRET := Some "secret";
     REDIRECT_URI := None; QBO_BASE := None;
     COMPANY_ID := Some "9130"; REFRESH_TOKEN := Some EmptyString |}.

Definition other_env : Env :=
  {| CLIENT_ID := None; CLIENT_SECRET := None; REDIRECT_URI := None;
     QBO_BASE := None; COMPANY_ID := Some "7777"; REFRESH_TOKEN := None |}.

(** A token file written by hand, with spaces of its own. *)
Definition spaced_store : World :=
  {| tokens_file := Some "  [1 ,2 ]  "; calls := [] |}.

(** ** Vocabulary of the statements about the codec *)

(** What can follow a value inside a text that [dumps] wrote. *)
Definition delimited (s : string) : Prop :=
  match s with
  | EmptyString => True
  | String c _ => c = ","%char \/ c = "]"%char \/ c = "}"%char
  end.

(** A text that starts with the first character of a value. *)
Definition starts_value (s : string) : Prop :=
  exists c t, s = String c t /\ is_ws c = false /\
              Ascii.eqb c "]" = false /\ Ascii.eqb c "}" = false.

(** The text of one member of a dict. *)
Definition member_text (kv : string * json) : string :=
  let '(k, x) := kv in quote k +:+ ": " +:+ dumps x.

(** The first character of a number. *)
Definition number_start (c : ascii) : bool :=
  Ascii.eqb c "-" || bool_decide (is_Some (digit_of_char c)).

(** The statement of the round trip for one value, with the fuel it needs. *)
Definition reads_back (v : json) : Prop :=
  wf v = true ->
  forall (fuel : nat) (rest : string),
    delimited rest -> (String.length (dumps v) <= fuel)%nat ->
    read_value fuel (dumps v +:+ rest) = Some (v, rest).

(** * Properties *)

(** ** The codec: what [dumps] writes, [loads] reads back *)

Lemma append_cons (x : ascii) (a b : string) :
  String x a +:+ b = String x (a +:+ b).
Proof. reflexivity. Qed.

Lemma append_assoc (a b c : string) : (a +:+ b) +:+ c = a +:+ (b +:+ c).
Proof.
  induction a as [|x a IH]; [done|]. by rewrite !append_cons, IH.
Qed.

Lemma append_nil_r (a : string) : a +:+ EmptyString = a.
Proof.
  induction a as [|x a IH]; [done|]. by rewrite append_cons, IH.
Qed.

Lemma length_append (a b : string) :
  String.length (a +:+ b) = (String.length a + String.length b)%nat.
Proof.
  induction a as [|x a IH]; [done|]. rewrite append_cons. simpl. by rewrite IH.
Qed.

(** *** String literals *)

Lemma read_string_escape_char (c : ascii) (s : string) :
  read_string (escape_char c +:+ s) =
  '(t, r) ← read_string s; Some (String c t, r).
Proof.
  destruct c as [[] [] [] [] [] [] [] []]; reflexivity.
Qed.

Lemma read_string_escape (s rest : string) :
  read_string (escape s +:+ String dquote rest) = Some (s, rest).
Proof.
  induction s as [|c s IH]; [done|].
  cbn [escape]. rewrite append_assoc, read_string_escape_char, IH. done.
Qed.

Lemma read_string_quote (s rest : string) :
  exists t, quote s +:+ rest = String dquote t /\ read_string t = Some (s, rest).
Proof.
  eexists; split; [reflexivity|].
  rewrite append_assoc. apply read_string_escape.
Qed.

(** *** Numbers *)

Lemma delimited_digit (s : string) :
  delimited s -> read_digits s = (Nil, s) /\ float_follows s = false.
Proof.
  destruct s as [|c s]; [done|]. intros [-> | [-> | ->] ]; done.
Qed.

Lemma read_digits_digits (d : uint) (rest : string) :
  delimited rest -> read_digits (digits d +:+ rest) = (d, rest).
Proof.
  intros Hr. induction d; cbn [digits]; rewrite ?append_cons;
    [by apply delimited_digit|..]; cbn; by rewrite IHd.
Qed.

Lemma unorm_no_leading_zero (d : uint) : unorm d = d -> no_leading_zero d = true.
Proof.
  intros H. destruct d as [|d| | | | | | | | |]; try done.
  destruct d; try done; exfalso; unfold unorm in H;
    match type of H with context [nzhead ?u] =>
      pose proof (nzhead_nonzero u) as Hn; destruct (nzhead u)
    end; try done; by eapply Hn.
Qed.

Lemma to_uint_no_leading_zero (n : N) : no_leading_zero (N.to_uint n) = true.
Proof.
  apply unorm_no_leading_zero.
  rewrite <- (Unsigned.of_to n) at 2. by rewrite Unsigned.to_of.
Qed.

Lemma digits_not_minus (d : uint) (rest : string) :
  no_leading_zero d = true ->
  exists c t, digits d +:+ rest = String c t /\ Ascii.eqb c "-" = false.
Proof. destruct d; try done; intros _; by eexists _, _. Qed.

Lemma read_int_unsigned (n : N) (rest : string) :
  delimited rest ->
  read_int (digits (N.to_uint n) +:+ rest) = Some (Z.of_N n, rest).
Proof.
  intros Hr. unfold read_int.
  destruct (digits_not_minus (N.to_uint n) rest) as (c & t & E & Hc);
    [apply to_uint_no_leading_zero|].
  rewrite E, Hc, <- E, read_digits_digits by done.
  rewrite to_uint_no_leading_zero, Unsigned.of_to.
  by destruct (delimited_digit rest Hr) as [_ ->].
Qed.

Lemma read_int_int_str (n : Z) (rest : string) :
  delimited rest -> read_int (int_str n +:+ rest) = Some (n, rest).
Proof.
  intros Hr. destruct n as [|p|p]; cbn [int_str].
  - exact (read_int_unsigned 0 rest Hr).
  - exact (read_int_unsigned (Npos p) rest Hr).
  - rewrite append_cons. unfold read_int. cbn [Ascii.eqb Bool.eqb].
    rewrite read_digits_digits, to_uint_no_leading_zero, Unsigned.of_to by done.
    by destruct (delimited_digit rest Hr) as [_ ->].
Qed.

(** *** Dictionaries with distinct keys *)

Lemma existsb_eqb_elem_of (k : string) (l : list string) :
  existsb (String.eqb k) l = true <-> k ∈ l.
Proof.
  induction l as [|x l IH]; cbn; [by rewrite elem_of_nil|].
  rewrite elem_of_cons, orb_true_iff, IH, String.eqb_eq. done.
Qed.

Lemma distinct_NoDup (l : list string) : distinct l = true <-> NoDup l.
Proof.
  induction l as [|x l IH]; cbn; [by split; [constructor|]|].
  rewrite NoDup_cons, andb_true_iff, negb_true_iff, IH, <- existsb_eqb_elem_of.
  destruct (existsb _ l); intuition congruence.
Qed.

Lemma dict_set_fresh {V : Type} (k : string) (v : V) (d : list (string * V)) :
  k ∉ keys d -> dict_set k v d = d ++ [(k, v)].
Proof.
  induction d as [|[k' v'] d IH]; cbn; [done|].
  rewrite not_elem_of_cons. intros [Hk Hd].
  destruct (String.eqb_spec k k'); [done|]. by rewrite IH.
Qed.

Lemma dict_of_pairs_acc (pairs acc : dict) :
  NoDup (keys (acc ++ pairs)) ->
  fold_left (fun d kv => dict_set (fst kv) (snd kv) d) pairs acc = acc ++ pairs.
Proof.
  revert acc. induction pairs as [|[k v] pairs IH]; intros acc H; cbn.
  - by rewrite app_nil_r.
  - rewrite dict_set_fresh.
    + rewrite IH; rewrite <- app_assoc; done.
    + unfold keys in H. rewrite map_app in H. apply NoDup_app in H as (_ & H & _).
      intros Hk. apply (H k Hk). cbn. apply elem_of_cons. by left.
Qed.

Lemma dict_of_pairs_distinct (pairs : dict) :
  distinct (keys pairs) = true -> dict_of_pairs pairs = pairs.
Proof.
  intros H. apply distinct_NoDup in H. by apply (dict_of_pairs_acc pairs []).
Qed.

(** *** Values *)

Lemma append_nil_l (a : string) : EmptyString +:+ a = a.
Proof. reflexivity. Qed.

Lemma skip_ws_starts_value (s : string) : starts_value s -> skip_ws s = s.
Proof. intros (c & t & -> & Hc & _). cbn. by rewrite Hc. Qed.

Lemma digits_starts_value (d : uint) (rest : string) :
  no_leading_zero d = true -> starts_value (digits d +:+ rest).
Proof. destruct d; try done; intros _; by eexists _, _. Qed.

Lemma dumps_starts_value (v : json) (rest : string) :
  starts_value (dumps v +:+ rest).
Proof.
  destruct v as [|[]|[|p|p]|s|xs|kvs]; try (by eexists _, _).
  apply (digits_starts_value (N.to_uint (Npos p))), to_uint_no_leading_zero.
Qed.

Lemma dumps_length (v : json) : (1 <= String.length (dumps v))%nat.
Proof.
  destruct (dumps_starts_value v EmptyString) as (c & t & E & _).
  rewrite append_nil_r in E. rewrite E. cbn. lia.
Qed.

Lemma join_cons2 (sep x y : string) (l : list string) :
  join sep (x :: y :: l) = x +:+ sep +:+ join sep (y :: l).
Proof. reflexivity. Qed.

Lemma read_items_last (fuel : nat) (s rest : string) (x : json) :
  read_value fuel s = Some (x, String "]" rest) ->
  read_items (S fuel) s = Some ([x], rest).
Proof. intros H. cbn [read_items]. by rewrite H. Qed.

Lemma read_items_more (fuel : nat) (s s2 rest : string) (x : json) (xs : list json) :
  read_value fuel s = Some (x, String "," (String " " s2)) ->
  starts_value s2 ->
  read_items fuel s2 = Some (xs, rest) ->
  read_items (S fuel) s = Some (x :: xs, rest).
Proof.
  intros H Hs Hxs. cbn [read_items]. rewrite H. cbn [mbind option_bind].
  change (skip_ws (String "," (String " " s2))) with (String "," (String " " s2)).
  cbn [Ascii.eqb Bool.eqb]. change (skip_ws (String " " s2)) with (skip_ws s2).
  by rewrite (skip_ws_starts_value s2 Hs), Hxs.
Qed.

Lemma read_items_join (xs : list json) :
  xs <> [] -> Forall reads_back xs -> forallb wf xs = true ->
  forall (fuel : nat) (rest : string),
    (String.length (join ", " (map dumps xs)) < fuel)%nat ->
    read_items fuel (join ", " (map dumps xs) +:+ String "]" rest) = Some (xs, rest).
Proof.
  intros Hne Hall. induction Hall as [|x l Hx Hl IH]; [done|].
  intros Hwf fuel rest Hfuel. cbn [forallb] in Hwf.
  apply andb_true_iff in Hwf as [Hwx Hwl].
  destruct fuel as [|fuel]; [lia|]. destruct l as [|y l].
  - cbn [map join] in *. apply read_items_last.
    apply (Hx Hwx); [cbn; auto|lia].
  - cbn [map] in *. rewrite join_cons2 in *.
    rewrite !length_append in Hfuel. cbn [String.length] in Hfuel.
    rewrite !append_assoc, !append_cons, append_nil_l.
    eapply read_items_more.
    + apply (Hx Hwx); [cbn; auto|lia].
    + destruct l; cbn [map join]; rewrite ?join_cons2, ?append_assoc;
        apply dumps_starts_value.
    + apply IH; [done|done|lia].
Qed.

Lemma read_members_last (fuel : nat) (t s3 rest k : string) (x : json) :
  read_string t = Some (k, String ":" (String " " s3)) ->
  starts_value s3 ->
  read_value fuel s3 = Some (x, String "}" rest) ->
  read_members (S fuel) (String dquote t) = Some ([(k, x)], rest).
Proof.
  intros Hk Hs Hx. cbn [read_members].
  change (Ascii.eqb dquote dquote) with true. cbv iota. rewrite Hk.
  cbn [mbind option_bind].
  change (skip_ws (String ":" (String " " s3))) with (String ":" (String " " s3)).
  cbn [Ascii.eqb Bool.eqb]. change (skip_ws (String " " s3)) with (skip_ws s3).
  by rewrite (skip_ws_starts_value s3 Hs), Hx.
Qed.

Lemma read_members_more (fuel : nat) (t s3 s4 rest k : string) (x : json) (kvs : dict) :
  read_string t = Some (k, String ":" (String " " s3)) ->
  starts_value s3 ->
  read_value fuel s3 = Some (x, String "," (String " " s4)) ->
  starts_value s4 ->
  read_members fuel s4 = Some (kvs, rest) ->
  read_members (S fuel) (String dquote t) = Some ((k, x) :: kvs, rest).
Proof.
  intros Hk Hs Hx Hs4 Hkvs. cbn [read_members].
  change (Ascii.eqb dquote dquote) with true. cbv iota. rewrite Hk.
  cbn [mbind option_bind].
  change (skip_ws (String ":" (String " " s3))) with (String ":" (String " " s3)).
  cbn [Ascii.eqb Bool.eqb]. change (skip_ws (String " " s3)) with (skip_ws s3).
  rewrite (skip_ws_starts_value s3 Hs), Hx. cbn [mbind option_bind].
  change (skip_ws (String "," (String " " s4))) with (String "," (String " " s4)).
  cbn [Ascii.eqb Bool.eqb]. change (skip_ws (String " " s4)) with (skip_ws s4).
  by rewrite (skip_ws_starts_value s4 Hs4), Hkvs.
Qed.

Lemma quote_starts_value (k rest : string) : starts_value (quote k +:+ rest).
Proof. by eexists _, _. Qed.

Lemma member_text_eq (k : string) (x : json) (rest : string) :
  member_text (k, x) +:+ rest =
  String dquote (escape k +:+ String dquote (String ":" (String " " (dumps x +:+ rest)))).
Proof.
  unfold member_text, quote.
  by rewrite !append_cons, !append_assoc, !append_cons, !append_nil_l.
Qed.

Lemma member_text_length (kv : string * json) :
  (String.length (dumps (snd kv)) + 4 <= String.length (member_text kv))%nat.
Proof.
  destruct kv as [k x]. unfold member_text, quote.
  rewrite !append_cons, append_nil_l. cbn [String.length snd].
  rewrite !length_append. cbn [String.length]. lia.
Qed.

Lemma read_members_join (kvs : dict) :
  kvs <> [] -> Forall (fun kv => reads_back (snd kv)) kvs ->
  forallb (fun '(_, x) => wf x) kvs = true ->
  forall (fuel : nat) (rest : string),
    (String.length (join ", " (map member_text kvs)) < fuel)%nat ->
    read_members fuel (join ", " (map member_text kvs) +:+ String "}" rest)
    = Some (kvs, rest).
Proof.
  intros Hne Hall. induction Hall as [|[k x] l Hx Hl IH]; [done|].
  intros Hwf fuel rest Hfuel. cbn [forallb] in Hwf.
  apply andb_true_iff in Hwf as [Hwx Hwl]. cbn [snd] in Hx.
  pose proof (member_text_length (k, x)) as Hlen. cbn [snd] in Hlen.
  destruct fuel as [|fuel]; [lia|]. destruct l as [|[k' y] l].
  - cbn [map join] in *. rewrite member_text_eq.
    eapply read_members_last.
    + apply read_string_escape.
    + apply dumps_starts_value.
    + apply (Hx Hwx); [cbn; auto|lia].
  - cbn [map] in *. rewrite join_cons2 in *.
    rewrite !length_append in Hfuel. cbn [String.length] in Hfuel.
    rewrite append_assoc, member_text_eq, !append_assoc, !append_cons,
      append_nil_l.
    eapply read_members_more.
    + apply read_string_escape.
    + apply dumps_starts_value.
    + apply (Hx Hwx); [cbn; auto|lia].
    + destruct l; cbn [map join]; rewrite ?join_cons2, ?append_assoc;
        unfold member_text; rewrite ?append_assoc; apply quote_starts_value.
    + apply IH; [done|done|lia].
Qed.

Lemma dumps_obj (kvs : dict) :
  dumps (JObj kvs) = "{" +:+ join ", " (map member_text kvs) +:+ "}".
Proof. reflexivity. Qed.

Lemma read_value_number (fuel : nat) (c : ascii) (t : string) :
  number_start c = true ->
  read_value (S fuel) (String c t) =
  '(n, r) ← read_int (String c t); Some (JNum n, r).
Proof.
  destruct c as [[] [] [] [] [] [] [] []]; intros H; try discriminate H;
    reflexivity.
Qed.

Lemma digits_number_start (d : uint) (rest : string) :
  no_leading_zero d = true ->
  exists c t, digits d +:+ rest = String c t /\ number_start c = true.
Proof. destruct d; try done; intros _; by eexists _, _. Qed.

Lemma int_str_number_start (n : Z) (rest : string) :
  exists c t, int_str n +:+ rest = String c t /\ number_start c = true.
Proof.
  destruct n as [|p|p]; [by eexists _, _| |by eexists _, _].
  apply (digits_number_start (N.to_uint (Npos p))), to_uint_no_leading_zero.
Qed.

Lemma quote_append (s rest : string) :
  quote s +:+ rest = String dquote (escape s +:+ String dquote rest).
Proof.
  unfold quote. by rewrite append_cons, append_assoc, append_cons, append_nil_l.
Qed.

Lemma read_value_string (fuel : nat) (t : string) :
  read_value (S fuel) (String dquote t) =
  '(s, r) ← read_string t; Some (JStr s, r).
Proof. reflexivity. Qed.

Lemma read_value_array (fuel : nat) (s rest : string) (xs : list json) :
  starts_value s ->
  read_items fuel s = Some (xs, rest) ->
  read_value (S fuel) (String "[" s) = Some (JArr xs, rest).
Proof.
  intros Hs Hxs. cbn [read_value]. cbn [Ascii.eqb Bool.eqb]. cbv iota.
  change (Ascii.eqb "[" dquote) with false. cbv iota.
  rewrite (skip_ws_starts_value s Hs).
  destruct Hs as (c & t & -> & _ & -> & _). by rewrite Hxs.
Qed.

Lemma read_value_object (fuel : nat) (s rest : string) (kvs : dict) :
  starts_value s ->
  read_members fuel s = Some (kvs, rest) ->
  read_value (S fuel) (String "{" s) = Some (JObj (dict_of_pairs kvs), rest).
Proof.
  intros Hs Hxs. cbn [read_value]. cbn [Ascii.eqb Bool.eqb]. cbv iota.
  change (Ascii.eqb "{" dquote) with false. cbv iota.
  rewrite (skip_ws_starts_value s Hs).
  destruct Hs as (c & t & -> & _ & _ & ->). by rewrite Hxs.
Qed.

Lemma read_value_dumps (v : json) : reads_back v.
Proof.
  induction v as [|b|n|s|xs IH|kvs IH] using json_ind;
    intros Hwf fuel rest Hr Hfuel;
    (destruct fuel as [|fuel];
     [match type of Hfuel with
      | (String.length (dumps ?v) <= _)%nat => pose proof (dumps_length v); lia
      end|]).
  - done.
  - by destruct b.
  - destruct (int_str_number_start n rest) as (c & t & E & Hc).
    cbn [dumps]. rewrite E, (read_value_number _ _ _ Hc), <- E.
    by rewrite (read_int_int_str n rest Hr).
  - cbn [dumps]. rewrite quote_append, read_value_string.
    by rewrite read_string_escape.
  - cbn [dumps wf] in *. rewrite !append_cons, !append_nil_l in *.
    cbn [String.length] in Hfuel. rewrite length_append in Hfuel.
    cbn [String.length] in Hfuel. rewrite append_assoc, append_cons, append_nil_l.
    destruct xs as [|x xs]; [done|].
    apply read_value_array.
    + destruct xs; cbn [map join]; rewrite ?join_cons2, ?append_assoc;
        apply dumps_starts_value.
    + apply read_items_join; [done|done|done|lia].
  - rewrite dumps_obj in *. cbn [wf] in Hwf.
    apply andb_true_iff in Hwf as [Hd Hwf].
    rewrite !append_cons, !append_nil_l in *.
    cbn [String.length] in Hfuel. rewrite length_append in Hfuel.
    cbn [String.length] in Hfuel. rewrite append_assoc, append_cons, append_nil_l.
    destruct kvs as [|kv kvs]; [done|].
    rewrite <- (dict_of_pairs_distinct (kv :: kvs) Hd) at 2.
    apply read_value_object.
    + destruct kv as [k x]. destruct kvs; cbn [map join];
        rewrite ?join_cons2, ?append_assoc; unfold member_text;
        rewrite ?append_assoc; apply quote_starts_value.
    + apply read_members_join; [done|done|done|lia].
Qed.

Theorem loads_dumps (v : json) : wf v = true -> loads (dumps v) = Some v.
Proof.
  intros Hwf. unfold loads.
  pose proof (dumps_starts_value v EmptyString) as Hs. rewrite append_nil_r in Hs.
  rewrite (skip_ws_starts_value _ Hs).
  pose proof (read_value_dumps v Hwf (S (String.length (dumps v))) EmptyString I) as H.
  rewrite append_nil_r in H. by rewrite H by lia.
Qed.

(** *** Whatever [loads] returns is a well-formed value *)

Lemma dict_set_keys {V : Type} (k x : string) (v : V) (d : list (string * V)) :
  x ∈ keys (dict_set k v d) -> x = k \/ x ∈ keys d.
Proof.
  induction d as [|[k' v'] d IH]; cbn.
  - rewrite list_elem_of_singleton. auto.
  - destruct (String.eqb k k'); cbn; rewrite !elem_of_cons; [auto|].
    intros [?|?]; [auto|]. destruct IH; auto.
Qed.

Lemma dict_set_NoDup {V : Type} (k : string) (v : V) (d : list (string * V)) :
  NoDup (keys d) -> NoDup (keys (dict_set k v d)).
Proof.
  induction d as [|[k' v'] d IH]; cbn.
  - intros _. apply NoDup_singleton.
  - rewrite NoDup_cons. intros [Hk Hd].
    destruct (String.eqb_spec k k') as [->|Hne]; cbn; apply NoDup_cons;
      [done|]. split; [|by apply IH].
    intros Hin. apply dict_set_keys in Hin as [->|Hin]; done.
Qed.

Lemma dict_set_forallb {V : Type} (P : string * V -> bool) (k : string) (v : V)
    (d : list (string * V)) :
  (forall k', P (k', v) = true) -> forallb P d = true ->
  forallb P (dict_set k v d) = true.
Proof.
  intros Hv. induction d as [|[k' v'] d IH]; cbn.
  - intros _. by rewrite Hv.
  - rewrite andb_true_iff. intros [H1 H2].
    destruct (String.eqb k k'); cbn; rewrite ?Hv, ?H1; auto.
Qed.

Lemma dict_of_pairs_wf (pairs : dict) :
  forallb (fun '(_, x) => wf x) pairs = true ->
  wf (JObj (dict_of_pairs pairs)) = true.
Proof.
  intros H. unfold dict_of_pairs.
  assert (Hacc : wf (JObj []) = true) by done.
  revert Hacc H. generalize (@nil (string * json)) as acc.
  induction pairs as [|[k x] pairs IH]; intros acc Hacc H; cbn in *; [done|].
  apply andb_true_iff in H as [Hx Hp]. apply IH; [|done].
  apply andb_true_iff in Hacc as [Hd Hw]. apply andb_true_iff. split.
  - apply distinct_NoDup, dict_set_NoDup, distinct_NoDup, Hd.
  - by apply (dict_set_forallb (fun '(_, x) => wf x)).
Qed.

Lemma read_wf (fuel : nat) :
  (forall s v r, read_value fuel s = Some (v, r) -> wf v = true) /\
  (forall s xs r, read_items fuel s = Some (xs, r) -> forallb wf xs = true) /\
  (forall s kvs r, read_members fuel s = Some (kvs, r) ->
                   forallb (fun '(_, x) => wf x) kvs = true).
Proof.
  induction fuel as [|fuel (IHv & IHi & IHm)]; [done|].
  split; [|split].
  - intros s v r. cbn [read_value]. intros H.
    repeat (case_match; simplify_option_eq); try done.
    + eapply IHi; eauto.
    + apply dict_of_pairs_wf. eapply IHm; eauto.
  - intros s xs r. cbn [read_items]. intros H.
    destruct (read_value fuel s) as [[x s1]|] eqn:Ex; [|done]. cbn in H.
    destruct (skip_ws s1) as [|c s2]; [done|].
    destruct (Ascii.eqb c ","); [|destruct (Ascii.eqb c "]"); [|done]].
    + destruct (read_items fuel (skip_ws s2)) as [[ys r']|] eqn:Ey; [|done].
      cbn in H. injection H as <- <-. cbn.
      rewrite (IHv _ _ _ Ex). eapply IHi; eauto.
    + injection H as <- <-. cbn. by rewrite (IHv _ _ _ Ex).
  - intros s kvs r. cbn [read_members]. intros H.
    destruct s as [|q s0]; [done|]. destruct (Ascii.eqb q dquote); [|done].
    destruct (read_string s0) as [[k s1]|]; [|done]. cbn in H.
    destruct (skip_ws s1) as [|c s2]; [done|].
    destruct (Ascii.eqb c ":"); [|done].
    destruct (read_value fuel (skip_ws s2)) as [[x s3]|] eqn:Ex; [|done].
    cbn in H. destruct (skip_ws s3) as [|c' s4]; [done|].
    destruct (Ascii.eqb c' ","); [|destruct (Ascii.eqb c' "}"); [|done]].
    + destruct (read_members fuel (skip_ws s4)) as [[ys r']|] eqn:Ey; [|done].
      cbn in H. injection H as <- <-. cbn.
      rewrite (IHv _ _ _ Ex). eapply IHm; eauto.
    + injection H as <- <-. cbn. by rewrite (IHv _ _ _ Ex).
Qed.

Theorem loads_wf (s : string) (v : json) : loads s = Some v -> wf v = true.
Proof.
  unfold loads. intros H.
  destruct (read_value _ _) as [[v' r]|] eqn:E; [|done].
  cbn in H. destruct (skip_ws r); [|done]. injection H as <-.
  by apply (read_wf _) in E.
Qed.

(** A record as [dumps] writes it. *)
Example dumps_example :
  dumps (JObj [("access_token", JStr "new"); ("expires_in", JNum 3600);
               ("scopes", JArr [JBool true; JNull; JNum (-7)])]) =
  "{" +:+ quote "access_token" +:+ ": " +:+ quote "new" +:+ ", " +:+
  quote "expires_in" +:+ ": 3600, " +:+ quote "scopes" +:+ ": [true, null, -7]}".
Proof. reflexivity. Qed.

(** [loads] skips white space, keeps the first place and the last value
    of a repeated key, and reads [-0] as [0]. *)
Example loads_example :
  loads ("  { " +:+ quote "a" +:+ " :[1 , 2,[]],  " +:+ quote "bé\n" +:+ ":{}, "
         +:+ quote "a" +:+ ": -0 } ") =
  Some (JObj [("a", JNum 0); ("bé\n", JObj [])]).
Proof. vm_compute. reflexivity. Qed.

(** ** Running a handler *)

Lemma bind_ok {A B : Type} (m : M A) (f : A -> M B) (w w' : World) (a : A) :
  m w = (Ok a, w') -> (m ≫= f) w = f a w'.
Proof. intros H. unfold mbind, M_bind. by rewrite H. Qed.


Lemma load_tokens_world (w : World) : snd (load_tokens w) = w.
Proof. unfold load_tokens. repeat case_match; done. Qed.

Lemma load_tokens_run (w : World) (v : json) :
  fst (load_tokens w) = Ok v -> load_tokens w = (Ok v, w).
Proof.
  intros H. rewrite <- (load_tokens_world w) at 2.
  rewrite <- H. by destruct (load_tokens w).
Qed.

(** The client is built from the stored record alone, without a call. *)
Lemma get_qb_client_run (env : Env) (w : World) (tokens : dict) :
  fst (load_tokens w) = Ok (JObj tokens) ->
  get_qb_client env w =
    (let token := from_option id JNull (dict_lookup "access_token" tokens) in
     let realm := py_or (from_option id JNull (dict_lookup "realmId" tokens))
                        (getenv (COMPANY_ID env)) in
     if truthy token && truthy realm
     then Ok (Some {| access_token := token; realm_id := realm;
                      base_url := "https://sandbox-quickbooks.api.intuit.com/v3/company" |})
     else Ok None, w).
Proof.
  intros H. apply load_tokens_run in H. unfold get_qb_client.
  rewrite (bind_ok _ _ _ _ _ H). cbn -[truthy py_or].
  unfold mbind, M_bind, lift, mret, M_ret.
  destruct (truthy _); [destruct (truthy _)|]; done.
Qed.

Lemma get_qb_client_empty (env : Env) (w : World) :
  fst (load_tokens w) = Ok (JObj []) -> get_qb_client env w = (Ok None, w).
Proof. intros H. by rewrite (get_qb_client_run env w [] H). Qed.

(** C4.  With no token record in the store, so that loading gives the
    empty mapping, each of the six data endpoints answers with the
    not-authenticated message and leaves the world, hence the log of
    outbound calls, as it was: no call is made.  This holds whatever
    [COMPANY_ID] is.  The body of [POST /create-invoice] is any validated
    model; whatever the request body, that endpoint makes no call. *)
Theorem C4_no_token_no_call
    (env : Env) (service : list Request -> Request -> Response) (w : World) :
  fst (load_tokens w) = Ok (JObj []) ->
  customer_info env service w = (Ok not_authenticated, w) /\
  get_customers env service w = (Ok not_authenticated, w) /\
  get_invoices env service w = (Ok not_authenticated, w) /\
  customer_invoices env service w = (Ok not_authenticated, w) /\
  (forall m, create_invoice env service m w = (Ok not_authenticated, w)) /\
  get_inventory env service w = (Ok not_authenticated, w) /\
  (forall payload, calls (snd (create_invoice_endpoint env service payload w)) = calls w).
Proof.
  intros H. pose proof (get_qb_client_empty env w H) as Hc.
  unfold customer_info, get_customers, get_invoices, customer_invoices,
    get_inventory, create_invoice_endpoint, create_invoice.
  repeat split; intros; try by rewrite (bind_ok _ _ _ _ _ Hc).
  destruct (validate payload); [by rewrite (bind_ok _ _ _ _ _ Hc)|done].
Qed.

(** ** Running the handlers once the client is there *)

(** Unfolds the binds of a handler down to pure computations. *)
Ltac run :=
  unfold query, get_company_info, http, lift, query_result;
  unfold mbind, M_bind, mret, M_ret, Res_bind, Res_ret; cbn beta iota.

Lemma get_customers_run (env : Env) (service : list Request -> Request -> Response)
    (w : World) (qb : QuickBooksClient) :
  get_qb_client env w = (Ok (Some qb), w) ->
  let q := query_request qb "SELECT * FROM Customer" in
  let r := service (calls w) q in
  get_customers env service w =
    (if negb (status_code r =? 200) then Ok (error_body r)
     else cs ← query_result r "Customer";
          out ← mapR extract_customer_fields cs;
          Ok (JObj [("customers", JArr out)]),
     after_call w q).
Proof.
  intros H q r. unfold get_customers. rewrite (bind_ok _ _ _ _ _ H). run.
  fold q r. destruct (negb _); [done|].
  destruct (response_json r) as [data|]; [|done].
  destruct (get data _ _) as [qr|]; [|done].
  destruct (get qr _ _) as [xs|]; [|done].
  destruct (py_iter xs) as [cs|]; [|done].
  by destruct (mapR _ cs).
Qed.

Lemma get_invoices_run (env : Env) (service : list Request -> Request -> Response)
    (w : World) (qb : QuickBooksClient) :
  get_qb_client env w = (Ok (Some qb), w) ->
  let q := query_request qb "SELECT * FROM Invoice" in
  let r := service (calls w) q in
  get_invoices env service w =
    (if negb (status_code r =? 200) then Ok (error_body r)
     else invs ← query_result r "Invoice";
          out ← mapR extract_invoice_fields invs;
          Ok (JObj [("invoices", JArr out)]),
     after_call w q).
Proof.
  intros H q r. unfold get_invoices. rewrite (bind_ok _ _ _ _ _ H). run.
  fold q r. destruct (negb _); [done|].
  destruct (response_json r) as [data|]; [|done].
  destruct (get data _ _) as [qr|]; [|done].
  destruct (get qr _ _) as [xs|]; [|done].
  destruct (py_iter xs) as [cs|]; [|done].
  by destruct (mapR _ cs).
Qed.

Lemma get_inventory_run (env : Env) (service : list Request -> Request -> Response)
    (w : World) (qb : QuickBooksClient) :
  get_qb_client env w = (Ok (Some qb), w) ->
  let q := query_request qb "SELECT * FROM Item WHERE Type = 'Inventory'" in
  let r := service (calls w) q in
  get_inventory env service w =
    (if negb (status_code r =? 200) then Ok (error_body r)
     else items ← query_result r "Item";
          out ← mapR extract_item_fields items;
          Ok (JObj [("inventory", JArr out)]),
     after_call w q).
Proof.
  intros H q r. unfold get_inventory. rewrite (bind_ok _ _ _ _ _ H). run.
  fold q r. destruct (negb _); [done|].
  destruct (response_json r) as [data|]; [|done].
  destruct (get data _ _) as [qr|]; [|done].
  destruct (get qr _ _) as [xs|]; [|done].
  destruct (py_iter xs) as [cs|]; [|done].
  by destruct (mapR _ cs).
Qed.

Lemma customer_info_run (env : Env) (service : list Request -> Request -> Response)
    (w : World) (qb : QuickBooksClient) :
  get_qb_client env w = (Ok (Some qb), w) ->
  let q := company_info_request qb in
  let r := service (calls w) q in
  customer_info env service w =
    (data ← (if status_code r =? 200 then response_json r else Ok (JStr (text r)));
     Ok (JObj [("status_code", JNum (status_code r)); ("data", data)]),
     after_call w q).
Proof.
  intros H q r. unfold customer_info. rewrite (bind_ok _ _ _ _ _ H). run.
  fold q r. destruct (status_code r =? 200); [|done].
  by destruct (response_json r).
Qed.

Lemma create_invoice_run (env : Env) (service : list Request -> Request -> Response)
    (w : World) (qb : QuickBooksClient) (m : InvoiceCreateModel) :
  get_qb_client env w = (Ok (Some qb), w) ->
  let q := invoice_request qb (model_dict m) in
  let r := service (calls w) q in
  create_invoice env service m w =
    (if negb ((status_code r =? 200) || (status_code r =? 201))
     then Ok (error_body r) else response_json r,
     after_call w q).
Proof.
  intros H q r. unfold create_invoice. rewrite (bind_ok _ _ _ _ _ H). run.
  fold q r. by destruct (negb _).
Qed.

Lemma customer_invoices_run (env : Env) (service : list Request -> Request -> Response)
    (w : World) (qb : QuickBooksClient) :
  get_qb_client env w = (Ok (Some qb), w) ->
  let q1 := query_request qb "SELECT Id, DisplayName, PrimaryEmailAddr FROM Customer" in
  let r1 := service (calls w) q1 in
  let w1 := after_call w q1 in
  let q2 := query_request qb "SELECT * FROM Invoice" in
  let r2 := service (calls w1) q2 in
  customer_invoices env service w =
    if negb (status_code r1 =? 200) then (Ok (error_body r1), w1)
    else
      match query_result r1 "Customer" ≫= fun cs => build_customer_map cs [] with
      | Raise e => (Raise e, w1)
      | Ok customer_map =>
          (if negb (status_code r2 =? 200) then Ok (error_body r2)
           else invs ← query_result r2 "Invoice";
                result ← mapR (invoice_entry customer_map) invs;
                Ok (JObj [("customer_invoices", JArr result)]),
           after_call w1 q2)
      end.
Proof.
  intros H q1 r1 w1 q2 r2. unfold customer_invoices.
  rewrite (bind_ok _ _ _ _ _ H). run. fold q1 r1 w1.
  destruct (negb (status_code r1 =? 200)); [done|].
  destruct (response_json r1) as [data|]; [|done].
  destruct (get data _ _) as [qr|]; [|done].
  destruct (get qr _ _) as [xs|]; [|done].
  destruct (py_iter xs) as [cs|]; [|done].
  destruct (build_customer_map cs []) as [cmap|]; [|done].
  fold q2 r2. destruct (negb (status_code r2 =? 200)); [done|].
  destruct (response_json r2) as [data2|]; [|done].
  destruct (get data2 _ _) as [qr2|]; [|done].
  destruct (get qr2 _ _) as [ys|]; [|done].
  destruct (py_iter ys) as [invs|]; [|done].
  by destruct (mapR _ invs).
Qed.

(** ** Projections *)

Lemma mapR_ok {A B : Type} (f : A -> Res B) (g : A -> B) (l : list A) :
  (forall x, x ∈ l -> f x = Ok (g x)) -> mapR f l = Ok (map g l).
Proof.
  induction l as [|x l IH]; intros H; cbn; [done|].
  rewrite (H x) by (apply elem_of_cons; by left). cbn.
  rewrite IH; [done|]. intros y Hy. apply H, elem_of_cons. by right.
Qed.

Lemma mapR_raises {A B : Type} (f : A -> Res B) (l : list A) (x : A) :
  x ∈ l -> raises (f x) -> raises (mapR f l).
Proof.
  induction l as [|y l IH]; intros Hx Hr; [by apply elem_of_nil in Hx|].
  cbn. apply elem_of_cons in Hx as [<-|Hx].
  - destruct Hr as [e ->]. by exists e.
  - destruct (f y) as [b|e]; [|by exists e]. cbn.
    destruct (IH Hx Hr) as [e ->]. by exists e.
Qed.

Lemma project_projection_of (ks : list string) (d : dict) :
  projection_of ks d (project ks d).
Proof.
  eexists. split; [reflexivity|]. split; [|split].
  - unfold keys. rewrite map_map. cbn. apply map_id.
  - induction ks as [|k' ks IH]; intros k Hk; [by apply elem_of_nil in Hk|].
    cbn. destruct (String.eqb_spec k k') as [->|Hne]; [done|].
    apply IH. apply elem_of_cons in Hk as [?|?]; done.
  - induction ks as [|k' ks IH]; intros k Hk; [done|].
    apply not_elem_of_cons in Hk as [Hne Hk]. cbn.
    destruct (String.eqb_spec k k'); [done|]. by apply IH.
Qed.

Lemma projections (ks : list string) (records : list dict) :
  Forall2 (projection_of ks) records (map (project ks) records).
Proof.
  induction records; cbn; constructor; [apply project_projection_of|done].
Qed.

Lemma extract_customer_fields_project (d : dict) :
  extract_customer_fields (JObj d) = Ok (project customer_keys d).
Proof. reflexivity. Qed.

Lemma extract_invoice_fields_project (d : dict) :
  extract_invoice_fields (JObj d) = Ok (project invoice_keys d).
Proof. reflexivity. Qed.

Lemma extract_item_fields_project (d : dict) :
  extract_item_fields (JObj d) = Ok (project item_keys d).
Proof. reflexivity. Qed.

Lemma mapR_project (f : json -> Res json) (ks : list string) (records : list dict) :
  (forall d, f (JObj d) = Ok (project ks d)) ->
  mapR f (map JObj records) = Ok (map (project ks) records).
Proof.
  intros H. induction records as [|d l IH]; cbn; [done|].
  by rewrite H, IH.
Qed.

(** C5.  With a client, when the upstream answers a list query with status
    200 and a list of records (objects), each of the three list endpoints
    returns one object per record, in order, and each object is the
    projection of its record on the fixed keys of that entity: exactly
    those keys, a key the record lacks with [null], and no key of the
    record outside them. *)
Theorem C5_projection_keeps_exactly_the_known_keys
    (env : Env) (service : list Request -> Request -> Response)
    (w : World) (qb : QuickBooksClient) :
  get_qb_client env w = (Ok (Some qb), w) ->
  (forall records,
     let q := query_request qb "SELECT * FROM Customer" in
     status_code (service (calls w) q) = 200 ->
     query_result (service (calls w) q) "Customer" = Ok (map JObj records) ->
     exists outs,
       get_customers env service w =
         (Ok (JObj [("customers", JArr outs)]), after_call w q) /\
       Forall2 (projection_of customer_keys) records outs) /\
  (forall records,
     let q := query_request qb "SELECT * FROM Invoice" in
     status_code (service (calls w) q) = 200 ->
     query_result (service (calls w) q) "Invoice" = Ok (map JObj records) ->
     exists outs,
       get_invoices env service w =
         (Ok (JObj [("invoices", JArr outs)]), after_call w q) /\
       Forall2 (projection_of invoice_keys) records outs) /\
  (forall records,
     let q := query_request qb "SELECT * FROM Item WHERE Type = 'Inventory'" in
     status_code (service (calls w) q) = 200 ->
     query_result (service (calls w) q) "Item" = Ok (map JObj records) ->
     exists outs,
       get_inventory env service w =
         (Ok (JObj [("inventory", JArr outs)]), after_call w q) /\
       Forall2 (projection_of item_keys) records outs).
Proof.
  intros H. split; [|split]; intros records q Hs Hq;
    eexists (map (project _) records); (split; [|apply projections]).
  - rewrite (get_customers_run env service w qb H). fold q. rewrite Hs, Hq. cbn.
    by rewrite (mapR_project _ customer_keys).
  - rewrite (get_invoices_run env service w qb H). fold q. rewrite Hs, Hq. cbn.
    by rewrite (mapR_project _ invoice_keys).
  - rewrite (get_inventory_run env service w qb H). fold q. rewrite Hs, Hq. cbn.
    by rewrite (mapR_project _ item_keys).
Qed.

(** ** The token store and the refresh *)

Lemma load_tokens_after_call (w : World) (q : Request) :
  load_tokens (after_call w q) = (fst (load_tokens w), after_call w q).
Proof. unfold load_tokens, after_call. cbn. by repeat case_match. Qed.

Lemma load_tokens_wf (w : World) (v : json) :
  fst (load_tokens w) = Ok v -> wf v = true.
Proof.
  unfold load_tokens. destruct (tokens_file w) as [s|]; cbn.
  - destruct (loads s) as [v'|] eqn:E; cbn; [|done].
    intros [= <-]. by apply (loads_wf s).
  - by intros [= <-].
Qed.

Lemma dict_lookup_set {V : Type} (k k' : string) (v : V) (d : list (string * V)) :
  dict_lookup k (dict_set k' v d) =
  if String.eqb k k' then Some v else dict_lookup k d.
Proof.
  induction d as [|[k2 v2] d IH]; cbn; [done|].
  destruct (String.eqb_spec k' k2) as [->|Hne]; cbn.
  - by destruct (String.eqb k k2).
  - rewrite IH. destruct (String.eqb_spec k k2) as [->|?]; [|done].
    destruct (String.eqb_spec k2 k'); [by subst|done].
Qed.

Lemma dict_lookup_wf (k : string) (d : dict) (v : json) :
  wf (JObj d) = true -> dict_lookup k d = Some v -> wf v = true.
Proof.
  cbn. rewrite andb_true_iff. intros [_ H]. induction d as [|[k' v'] d IH]; [done|].
  cbn in *. apply andb_true_iff in H as [Hv Hd].
  destruct (String.eqb k k'); [by intros [= <-]|by apply IH].
Qed.

Lemma dict_set_wf (k : string) (v : json) (d : dict) :
  wf (JObj d) = true -> wf v = true -> wf (JObj (dict_set k v d)) = true.
Proof.
  cbn. rewrite !andb_true_iff. intros [Hd Hw] Hv. split.
  - apply distinct_NoDup, dict_set_NoDup, distinct_NoDup, Hd.
  - by apply (dict_set_forallb (fun '(_, x) => wf x)).
Qed.

(** C1.  When the refresh token is configured, the provider answers the
    refresh call with status 200 and a JSON object [resp], and the store
    holds a record [old] (or no file, which loads as the empty record), the
    handler writes to the token file the provider's object, with the
    stored [realmId] set in it when [old] has one and nothing added when it
    has none; loading the store afterwards gives exactly that record.  Key
    by key: [realmId] is the stored one when there is one, every other key
    is the provider's. *)
Theorem C1_refresh_persists_response_with_stored_realm
    (env : Env) (service : list Request -> Request -> Response) (w : World)
    (rt : string) (resp old : dict) :
  REFRESH_TOKEN env = Some rt -> rt <> EmptyString ->
  let q := refresh_request env rt in
  let r := service (calls w) q in
  status_code r = 200 ->
  loads (text r) = Some (JObj resp) ->
  fst (load_tokens w) = Ok (JObj old) ->
  let record :=
    match dict_lookup "realmId" old with
    | Some realm => dict_set "realmId" realm resp
    | None => resp
    end in
  let w' := {| tokens_file := Some (dumps (JObj record)); calls := calls w ++ [q] |} in
  refresh_access_token env service w =
    (Ok (JObj [("success", JBool true); ("tokens", JObj record)]), w') /\
  load_tokens w' = (Ok (JObj record), w') /\
  (forall k, dict_lookup k record =
             match dict_lookup "realmId" old with
             | Some realm => if String.eqb k "realmId" then Some realm
                             else dict_lookup k resp
             | None => dict_lookup k resp
             end).
Proof.
  intros Hrt Hne q r Hs Hj Hold record w'.
  assert (Hwf : wf (JObj record) = true).
  { pose proof (loads_wf _ _ Hj) as Hresp. unfold record.
    destruct (dict_lookup "realmId" old) as [realm|] eqn:E; [|done].
    apply dict_set_wf; [done|].
    eapply dict_lookup_wf; [eapply load_tokens_wf|]; done. }
  split; [|split].
  - unfold refresh_access_token. rewrite Hrt.
    destruct rt as [|c rt]; [done|]. run. fold q r. rewrite Hs. cbn.
    unfold response_json. rewrite Hj.
    rewrite load_tokens_after_call, Hold. cbn.
    unfold w', record, save_tokens, after_call.
    by destruct (dict_lookup "realmId" old).
  - unfold load_tokens, w'. cbn [tokens_file]. by rewrite (loads_dumps _ Hwf).
  - intros k. unfold record. destruct (dict_lookup "realmId" old); [|done].
    apply dict_lookup_set.
Qed.

(** C8.  Saving a record and loading it gives the record back, whatever
    the file held before: the file then holds the text of the record and
    nothing of its earlier content.  Loading when there is no file gives
    the empty mapping and no error.  A record is a Python value whose
    dicts have distinct keys. *)
Theorem C8_load_after_save (r : json) (w : World) :
  wf r = true ->
  let w' := snd (save_tokens r w) in
  load_tokens w' = (Ok r, w') /\
  tokens_file w' = Some (dumps r) /\
  (forall w0, tokens_file w0 = None -> load_tokens w0 = (Ok (JObj []), w0)).
Proof.
  intros Hwf w'. split; [|split].
  - unfold load_tokens, w'. cbn [tokens_file snd save_tokens]. by rewrite (loads_dumps r Hwf).
  - done.
  - intros w0 H0. unfold load_tokens. by rewrite H0.
Qed.

(** ** The location of sale *)

Lemma present_holds (d : dict) (k : string) : present (JObj d) k = Ok (holds d k).
Proof.
  unfold present, holds. cbn. by destruct (dict_lookup k d).
Qed.

Lemma location_of_sale_eq (d : dict) :
  location_of_sale (JObj d) =
  if holds d "ShipAddr"
  then get (from_option id JNull (dict_lookup "ShipAddr" d)) "City" JNull
  else if holds d "LocationRef"
  then get (from_option id JNull (dict_lookup "LocationRef" d)) "name" JNull
  else if holds d "SalesTermRef"
  then get (from_option id JNull (dict_lookup "SalesTermRef" d)) "name" JNull
  else Ok JNull.
Proof.
  unfold location_of_sale. rewrite !present_holds. unfold holds. cbn.
  destruct (dict_lookup "ShipAddr" d) as [a|]; cbn;
    [destruct (truthy a); [done|]|];
    (destruct (dict_lookup "LocationRef" d) as [b|]; cbn;
     [destruct (truthy b); [done|]|]);
    (destruct (dict_lookup "SalesTermRef" d) as [c|]; cbn;
     [by destruct (truthy c)|done]).
Qed.

Lemma holds_dict (d a : dict) (k : string) :
  dict_lookup k d = Some (JObj a) -> a <> [] -> holds d k = true.
Proof. unfold holds. intros -> Ha. by destruct a. Qed.

(** C2, as amended.  The location of sale comes from the first of
    [ShipAddr], [LocationRef] and [SalesTermRef] that is present with a
    non-empty value: it is the [City] of that [ShipAddr], else the [name]
    of that [LocationRef], else the [name] of that [SalesTermRef], and
    [null] when the chosen object lacks the field; the later sources are
    not consulted then.  With none of the three present and non-empty it
    is [null]. *)
Theorem C2_location_from_first_present_source (d : dict) :
  (forall a, dict_lookup "ShipAddr" d = Some (JObj a) -> a <> [] ->
     location_of_sale (JObj d) = Ok (from_option id JNull (dict_lookup "City" a))) /\
  (holds d "ShipAddr" = false ->
   forall a, dict_lookup "LocationRef" d = Some (JObj a) -> a <> [] ->
     location_of_sale (JObj d) = Ok (from_option id JNull (dict_lookup "name" a))) /\
  (holds d "ShipAddr" = false -> holds d "LocationRef" = false ->
   forall a, dict_lookup "SalesTermRef" d = Some (JObj a) -> a <> [] ->
     location_of_sale (JObj d) = Ok (from_option id JNull (dict_lookup "name" a))) /\
  (holds d "ShipAddr" = false -> holds d "LocationRef" = false ->
   holds d "SalesTermRef" = false ->
     location_of_sale (JObj d) = Ok JNull).
Proof.
  rewrite location_of_sale_eq. repeat split.
  - intros a Ha Hne. by rewrite (holds_dict d a _ Ha Hne), Ha.
  - intros -> a Ha Hne. by rewrite (holds_dict d a _ Ha Hne), Ha.
  - intros -> -> a Ha Hne. by rewrite (holds_dict d a _ Ha Hne), Ha.
  - by intros -> -> ->.
Qed.

(** ** Company info *)

(** C3, as amended.  With a client, [GET /customer-info] answers with the
    upstream status code and, under [data], the raw response body when the
    status is not 200 and the decoded company info when it is; there is no
    [error] key in either case. *)
Theorem C3_customer_info_wraps_status_and_data
    (env : Env) (service : list Request -> Request -> Response)
    (w : World) (qb : QuickBooksClient) :
  get_qb_client env w = (Ok (Some qb), w) ->
  let q := company_info_request qb in
  let r := service (calls w) q in
  (status_code r <> 200 ->
   customer_info env service w =
     (Ok (JObj [("status_code", JNum (status_code r)); ("data", JStr (text r))]),
      after_call w q)) /\
  (status_code r = 200 -> forall info, loads (text r) = Some info ->
   customer_info env service w =
     (Ok (JObj [("status_code", JNum 200); ("data", info)]), after_call w q)).
Proof.
  intros H q r. rewrite (customer_info_run env service w qb H). fold q r. split.
  - intros Hs. apply Z.eqb_neq in Hs. by rewrite Hs.
  - intros Hs info Hj. rewrite Hs. cbn. unfold response_json. by rewrite Hj.
Qed.

(** ** Creating an invoice *)

Lemma validate_lacks_required (d : dict) : lacks_required d -> validate (JObj d) = None.
Proof.
  unfold validate. cbn.
  intros [H|[H|(lines & l & HL & Hin & Hl)]].
  - by rewrite H.
  - rewrite H. by destruct (dict_lookup "CustomerRef" d ≫= as_dict).
  - rewrite HL. destruct (dict_lookup "CustomerRef" d ≫= as_dict); [|done]. cbn.
    assert (Hnone : mapM validate_line lines = None); [|by rewrite Hnone].
    apply eq_None_not_Some. rewrite mapM_is_Some, Forall_forall.
    intros Hall. specialize (Hall _ Hin). revert Hall.
    unfold validate_line. cbn. destruct Hl as [-> | Hdt]; [by intros []|].
    rewrite Hdt. destruct (dict_lookup "Amount" l ≫= as_number); by intros [].
Qed.

(** C7.  [POST /create-invoice] refuses, through the check against the
    declared model and before any client is built or call made, a body
    without [CustomerRef], without [Line], or with a line item without
    [Amount] or [DetailType]: the world is unchanged.  For a validated
    body and with a client, an upstream status other than 200 and 201
    gives [{error: raw body}], and status 200 or 201 gives the decoded
    response as it is. *)
Theorem C7_create_invoice_validates_then_forwards
    (env : Env) (service : list Request -> Request -> Response) (w : World) :
  (forall d, lacks_required d ->
     create_invoice_endpoint env service (JObj d) w = (Raise RequestValidationError, w)) /\
  (forall payload m, validate payload = Some m ->
     create_invoice_endpoint env service payload w = create_invoice env service m w) /\
  (forall qb m, get_qb_client env w = (Ok (Some qb), w) ->
     let q := invoice_request qb (model_dict m) in
     let r := service (calls w) q in
     (status_code r <> 200 -> status_code r <> 201 ->
      create_invoice env service m w = (Ok (error_body r), after_call w q)) /\
     (status_code r = 200 \/ status_code r = 201 ->
      forall created, loads (text r) = Some created ->
      create_invoice env service m w = (Ok created, after_call w q))).
Proof.
  split; [|split].
  - intros d Hd. unfold create_invoice_endpoint.
    by rewrite (validate_lacks_required d Hd).
  - intros payload m Hm. unfold create_invoice_endpoint. by rewrite Hm.
  - intros qb m H q r. rewrite (create_invoice_run env service w qb m H).
    fold q r. split.
    + intros H1 H2. apply Z.eqb_neq in H1, H2. by rewrite H1, H2.
    + intros Hs created Hj. unfold response_json. rewrite Hj.
      by destruct Hs as [-> | ->].
Qed.

(** ** The client and the realm *)

(** C9.  With a stored record, building the client never raises.  It
    yields no client, and hence the not-authenticated answer, exactly when
    the access token is missing (absent, [null] or empty) or both the
    stored [realmId] and [COMPANY_ID] are.  When the record has an access
    token and no [realmId] key and [COMPANY_ID] is set, the client is built
    with [COMPANY_ID] as its realm: a list endpoint then sends its query to
    the company [COMPANY_ID] and returns the projected records. *)
Theorem C9_realm_falls_back_to_company_id
    (env : Env) (service : list Request -> Request -> Response)
    (w : World) (tokens : dict) :
  fst (load_tokens w) = Ok (JObj tokens) ->
  let token := from_option id JNull (dict_lookup "access_token" tokens) in
  let stored_realm := from_option id JNull (dict_lookup "realmId" tokens) in
  (exists client, get_qb_client env w = (Ok client, w) /\
     (client = None <->
      truthy token = false \/
      (truthy stored_realm = false /\ truthy (getenv (COMPANY_ID env)) = false))) /\
  (forall company,
     dict_lookup "realmId" tokens = None -> truthy token = true ->
     COMPANY_ID env = Some company -> company <> EmptyString ->
     let qb := {| access_token := token; realm_id := JStr company;
                  base_url := "https://sandbox-quickbooks.api.intuit.com/v3/company" |} in
     let q := query_request qb "SELECT * FROM Customer" in
     get_qb_client env w = (Ok (Some qb), w) /\
     url q = [Lit "https://sandbox-quickbooks.api.intuit.com/v3/company"; Lit "/";
              Fmt (JStr company); Lit "/query"] /\
     (forall records,
        status_code (service (calls w) q) = 200 ->
        query_result (service (calls w) q) "Customer" = Ok (map JObj records) ->
        get_customers env service w =
          (Ok (JObj [("customers", JArr (map (project customer_keys) records))]),
           after_call w q))).
Proof.
  intros H token stored_realm. pose proof (get_qb_client_run env w tokens H) as Hc.
  cbv zeta in Hc. fold token stored_realm in Hc. split.
  - rewrite Hc. unfold py_or.
    destruct (truthy token) eqn:Et; cbn [andb].
    + destruct (truthy stored_realm) eqn:Es; rewrite ?Es.
      * eexists. split; [done|]. split; [done|]. intros [?|[? _]]; done.
      * destruct (truthy (getenv _)) eqn:Ec; eexists; (split; [done|]).
        -- split; [done|]. intros [?|[_ ?]]; done.
        -- split; auto.
    + eexists. split; [done|]. split; auto.
  - intros company Hr Ht Hco Hne qb q.
    assert (Hqb : get_qb_client env w = (Ok (Some qb), w)).
    { rewrite Hc. unfold stored_realm, py_or. rewrite Hr, Ht, Hco. cbn.
      by destruct company. }
    split; [done|]. split; [done|].
    intros records Hs Hq. rewrite (get_customers_run env service w qb Hqb).
    fold q. rewrite Hs, Hq. cbn. by rewrite (mapR_project _ customer_keys).
Qed.

(** ** The joined view *)

Lemma res_bind_ok {A B : Type} (a : A) (f : A -> Res B) : Ok a ≫= f = f a.
Proof. reflexivity. Qed.

Lemma get_obj (d : dict) (k : string) (default : json) :
  get (JObj d) k default = Ok (from_option id default (dict_lookup k d)).
Proof. reflexivity. Qed.

Lemma invoice_line_projection (l : dict) :
  line_shape_ok l = true -> invoice_line (JObj l) = Ok (line_projection l).
Proof.
  unfold line_shape_ok, invoice_line, line_projection, nested. cbn.
  destruct (dict_lookup "SalesItemLineDetail" l) as [[| | | | |detail]|]; try done.
  cbn. destruct (dict_lookup "ItemRef" detail) as [[| | | | |item]|]; done.
Qed.

Lemma invoice_lines_projection (lines : list dict) :
  forallb line_shape_ok lines = true ->
  mapR invoice_line (map JObj lines) = Ok (map line_projection lines).
Proof.
  induction lines as [|l lines IH]; cbn [map mapR forallb]; [done|].
  rewrite andb_true_iff. intros [Hl Hls].
  by rewrite (invoice_line_projection l Hl), (IH Hls).
Qed.

(** C6, as amended.  Take an invoice whose customer id, the [value] of its
    [CustomerRef] or [None] when the invoice has no [CustomerRef] or the
    reference no [value], is no key of the customer lookup.  The lookup
    does not fail, and when the location of sale resolves to [loc] and the
    line items are objects whose nested objects are absent or objects, the
    entry is returned with [customer] and [customer_email] [null] and each
    line item projected on [type], [name], [qty], [rate] and [amount], an
    absent part as [null]. *)
Theorem C6_unmatched_customer_gives_null_fields
    (customer_map : kmap) (d ref : dict) (loc : json) (lines : list dict) :
  (dict_lookup "CustomerRef" d = None /\ ref = []) \/
    dict_lookup "CustomerRef" d = Some (JObj ref) ->
  let cust_id := from_option id JNull (dict_lookup "value" ref) in
  hashable cust_id = true ->
  kmap_lookup cust_id customer_map = None ->
  location_of_sale (JObj d) = Ok loc ->
  get (JObj d) "Line" (JArr []) ≫= py_iter = Ok (map JObj lines) ->
  forallb line_shape_ok lines = true ->
  invoice_entry customer_map (JObj d) =
    Ok (JObj [("customer", JNull); ("customer_email", JNull);
              ("invoice_date", from_option id JNull (dict_lookup "TxnDate" d));
              ("invoice_due_date", from_option id JNull (dict_lookup "DueDate" d));
              ("location_of_sale", loc);
              ("invoice_no", from_option id JNull (dict_lookup "DocNumber" d));
              ("lines", JArr (map line_projection lines))]).
Proof.
  intros Href cust_id Hh Hk Hloc Hlines Hshape. unfold invoice_entry.
  assert (Hget : get (JObj d) "CustomerRef" (JObj []) = Ok (JObj ref)).
  { rewrite get_obj. by destruct Href as [[-> ->] | ->]. }
  rewrite Hget, res_bind_ok, (get_obj ref "value"), res_bind_ok. fold cust_id.
  unfold kmap_get. rewrite Hh, Hk, res_bind_ok, Hloc, res_bind_ok.
  rewrite (get_obj d "Line"), res_bind_ok in Hlines.
  rewrite (get_obj d "Line"), res_bind_ok, Hlines, res_bind_ok.
  rewrite (invoice_lines_projection lines Hshape).
  reflexivity.
Qed.

Lemma build_customer_map_raises (cs : list json) (m : kmap) (c : dict) :
  JObj c ∈ cs -> dict_lookup "Id" c = None -> raises (build_customer_map cs m).
Proof.
  revert m. induction cs as [|y cs IH]; intros m Hin Hc;
    [by apply elem_of_nil in Hin|].
  cbn. apply elem_of_cons in Hin as [<-|Hin].
  - cbn. rewrite Hc. by eexists.
  - destruct (getitem y "Id") as [k|e]; [|by exists e]. cbn.
    destruct (hashable k); [by apply IH|by eexists].
Qed.

(** Goes on under a bind whose first computation may raise. *)
Ltac step :=
  match goal with
  | |- raises (?m ≫= _) =>
      let e := fresh "e" in destruct m as [?|e]; [cbn|by exists e]
  end.

Lemma invoice_entry_null_email (customer_map : kmap) (inv : dict) :
  null_email_match customer_map inv -> raises (invoice_entry customer_map (JObj inv)).
Proof.
  intros (ref & cust_id & c & Hr & Hv & Hh & Hk & He). unfold invoice_entry.
  cbn -[location_of_sale mapR]. rewrite Hr. cbn -[location_of_sale mapR].
  rewrite Hv. unfold kmap_get. cbn -[location_of_sale mapR]. rewrite Hh, Hk.
  cbn -[location_of_sale mapR]. step. step. step.
  cbn. rewrite He. cbn. by eexists.
Qed.

Lemma invoice_entry_null_detail (customer_map : kmap) (inv : dict) :
  null_line_detail inv -> raises (invoice_entry customer_map (JObj inv)).
Proof.
  intros (lines & l & Hl & Hin & Hd). unfold invoice_entry.
  step. step. step. step.
  cbn in Hl. destruct (py_iter _) as [ls|] eqn:E; [|done]. injection Hl as ->.
  cbn -[mapR].
  assert (Hr : raises (mapR invoice_line lines)).
  { apply (mapR_raises _ _ (JObj l) Hin). unfold invoice_line. cbn.
    rewrite Hd. cbn. by eexists. }
  destruct Hr as [e ->]. by exists e.
Qed.

(** C10.  With a client and status 200 from the customers query, the
    joined handler raises, and returns nothing, when a customer record has
    no [Id] key; and, once the lookup is built and the invoices query has
    answered with status 200, when an invoice matches a customer whose
    [PrimaryEmailAddr] is [null] or has a line item whose
    [SalesItemLineDetail] is [null].  A key with the value [null] is not an
    absent key. *)
Theorem C10_joined_view_raises_on_null_and_missing_id
    (env : Env) (service : list Request -> Request -> Response)
    (w : World) (qb : QuickBooksClient) :
  get_qb_client env w = (Ok (Some qb), w) ->
  let q1 := query_request qb "SELECT Id, DisplayName, PrimaryEmailAddr FROM Customer" in
  let r1 := service (calls w) q1 in
  let r2 := service (calls (after_call w q1)) (query_request qb "SELECT * FROM Invoice") in
  status_code r1 = 200 ->
  (forall cs c,
     query_result r1 "Customer" = Ok cs -> JObj c ∈ cs -> dict_lookup "Id" c = None ->
     raises (fst (customer_invoices env service w))) /\
  (forall cs customer_map invs inv,
     query_result r1 "Customer" = Ok cs ->
     build_customer_map cs [] = Ok customer_map ->
     status_code r2 = 200 ->
     query_result r2 "Invoice" = Ok invs -> JObj inv ∈ invs ->
     null_email_match customer_map inv \/ null_line_detail inv ->
     raises (fst (customer_invoices env service w))).
Proof.
  intros H q1 r1 r2 Hs. rewrite (customer_invoices_run env service w qb H).
  fold q1 r1. fold r2. rewrite Hs. cbn [Z.eqb Pos.eqb negb]. split.
  - intros cs c Hq Hin Hc. rewrite Hq. cbn.
    destruct (build_customer_map_raises cs [] c Hin Hc) as [e ->]. by exists e.
  - intros cs customer_map invs inv Hq Hm Hs2 Hq2 Hin Hnull.
    rewrite Hq. cbn. rewrite Hm, Hs2, Hq2. cbn.
    assert (Hr : raises (mapR (invoice_entry customer_map) invs)).
    { apply (mapR_raises _ _ (JObj inv) Hin).
      destruct Hnull; [by apply invoice_entry_null_email
                      |by apply invoice_entry_null_detail]. }
    destruct Hr as [e ->]. by exists e.
Qed.

(** ** The statements at sample data *)

(** The client built from the stored sample record. *)
Lemma sample_client_built :
  get_qb_client sample_env (stored with_realm) = (Ok (Some sample_client), stored with_realm).
Proof. vm_compute. reflexivity. Qed.

(** C1 at the sample: the store holds [{realmId: "123", access_token:
    "old"}] and the provider answers [{access_token: "new"}]. *)
Lemma C1_witness :
  let record := JObj [("access_token", JStr "new"); ("realmId", JStr "123")] in
  let w' := {| tokens_file := Some (dumps record);
               calls := [refresh_request sample_env "rt-1"] |} in
  refresh_access_token sample_env (serve sample_upstream) (stored with_realm) =
    (Ok (JObj [("success", JBool true); ("tokens", record)]), w') /\
  load_tokens w' = (Ok record, w').
Proof.
  destruct (C1_refresh_persists_response_with_stored_realm
              sample_env (serve sample_upstream) (stored with_realm) "rt-1"
              [("access_token", JStr "new")]
              [("realmId", JStr "123"); ("access_token", JStr "old")])
    as (H1 & H2 & _);
    [reflexivity|done|reflexivity|vm_compute; reflexivity|vm_compute; reflexivity|].
  split; [exact H1|exact H2].
Defined.

(** Without a token file the provider's object is stored as it is. *)
Example refresh_without_prior_record :
  refresh_access_token sample_env (serve sample_upstream) no_tokens =
    (Ok (JObj [("success", JBool true); ("tokens", JObj [("access_token", JStr "new")])]),
     {| tokens_file := Some (dumps (JObj [("access_token", JStr "new")]));
        calls := [refresh_request sample_env "rt-1"] |}).
Proof. vm_compute. reflexivity. Qed.

(** C2 as worded fails on an invoice with a ship-to address without city
    and a named location: the first non-empty of the three values is the
    location name, the handler gives [null]. *)
Lemma C2_counterexample :
  first_non_empty_location no_city_invoice = JStr "Y" /\
  location_of_sale (JObj no_city_invoice) = Ok JNull /\
  invoice_entry [] (JObj no_city_invoice) =
    Ok (JObj [("customer", JNull); ("customer_email", JNull);
              ("invoice_date", JNull); ("invoice_due_date", JNull);
              ("location_of_sale", JNull); ("invoice_no", JNull);
              ("lines", JArr [])]).
Proof. repeat split. Qed.

(** The amended C2 at an invoice with a sales term only. *)
Lemma C2_witness :
  location_of_sale (JObj [("SalesTermRef", JObj [("name", JStr "Z")])]) = Ok (JStr "Z").
Proof.
  destruct (C2_location_from_first_present_source
              [("SalesTermRef", JObj [("name", JStr "Z")])]) as (_ & _ & H & _).
  by apply (H eq_refl eq_refl [("name", JStr "Z")]).
Defined.

(** The ship-to city comes before the location name; with no source the
    location is [null]. *)
Example location_precedence :
  location_of_sale (JObj [("ShipAddr", JObj [("City", JStr "X")]);
                          ("LocationRef", JObj [("name", JStr "Y")])]) = Ok (JStr "X") /\
  location_of_sale (JObj [("DocNumber", JStr "1")]) = Ok JNull.
Proof. split; reflexivity. Qed.

(** C3 as worded fails both ways: on status 500 the answer is not
    [{error: "boom"}], and on status 200 it is not the company info alone. *)
Lemma C3_counterexample :
  let failing := with_lists [] [] in
  fst (customer_info sample_env (serve failing) (stored with_realm)) =
    Ok (JObj [("status_code", JNum 500); ("data", JStr "boom")]) /\
  error_body (on_company failing) = JObj [("error", JStr "boom")] /\
  fst (customer_info sample_env (serve sample_upstream) (stored with_realm)) =
    Ok (JObj [("status_code", JNum 200);
              ("data", JObj [("CompanyInfo", JObj [("CompanyName", JStr "Acme")])])]).
Proof. repeat split; vm_compute; reflexivity. Qed.

(** The amended C3 at an upstream that answers 500. *)
Lemma C3_witness :
  customer_info sample_env (serve (with_lists [] [])) (stored with_realm) =
    (Ok (JObj [("status_code", JNum 500); ("data", JStr "boom")]),
     after_call (stored with_realm) (company_info_request sample_client)).
Proof.
  destruct (C3_customer_info_wraps_status_and_data
              sample_env (serve (with_lists [] [])) (stored with_realm) sample_client
              sample_client_built) as [H _].
  by apply H.
Defined.

(** C4 at a world without token file. *)
Lemma C4_witness :
  customer_info sample_env (serve sample_upstream) no_tokens = (Ok not_authenticated, no_tokens) /\
  get_customers sample_env (serve sample_upstream) no_tokens = (Ok not_authenticated, no_tokens) /\
  get_invoices sample_env (serve sample_upstream) no_tokens = (Ok not_authenticated, no_tokens) /\
  customer_invoices sample_env (serve sample_upstream) no_tokens = (Ok not_authenticated, no_tokens) /\
  create_invoice sample_env (serve sample_upstream) sample_model no_tokens =
    (Ok not_authenticated, no_tokens) /\
  get_inventory sample_env (serve sample_upstream) no_tokens = (Ok not_authenticated, no_tokens).
Proof.
  destruct (C4_no_token_no_call sample_env (serve sample_upstream) no_tokens eq_refl)
    as (H1 & H2 & H3 & H4 & H5 & H6 & _).
  exact (conj H1 (conj H2 (conj H3 (conj H4 (conj (H5 sample_model) H6))))).
Defined.

(** C5 at the sample customers, the first with an extra field [Foo]. *)
Lemma C5_witness :
  exists outs,
    get_customers sample_env (serve sample_upstream) (stored with_realm) =
      (Ok (JObj [("customers", JArr outs)]),
       after_call (stored with_realm) (query_request sample_client "SELECT * FROM Customer")) /\
    Forall2 (projection_of customer_keys) sample_customer_records outs.
Proof.
  destruct (C5_projection_keeps_exactly_the_known_keys
              sample_env (serve sample_upstream) (stored with_realm) sample_client
              sample_client_built) as (H & _ & _).
  apply (H sample_customer_records); vm_compute; reflexivity.
Defined.

(** The projected customers in full: no [Foo], absent fields [null]. *)
Example customers_without_unknown_fields :
  fst (get_customers sample_env (serve sample_upstream) (stored with_realm)) =
    Ok (JObj [("customers", JArr [
      JObj [("Id", JStr "1"); ("DisplayName", JStr "Ana");
            ("PrimaryEmailAddr", JObj [("Address", JStr "ana@example.com")]);
            ("PrimaryPhone", JNull); ("CompanyName", JNull); ("Balance", JNull)];
      JObj [("Id", JStr "2"); ("DisplayName", JStr "Luis");
            ("PrimaryEmailAddr", JNull); ("PrimaryPhone", JNull);
            ("CompanyName", JNull); ("Balance", JNum 40)]])]).
Proof. vm_compute. reflexivity. Qed.

(** The projected items in full: no [Level]. *)
Example inventory_without_unknown_fields :
  fst (get_inventory sample_env (serve sample_upstream) (stored with_realm)) =
    Ok (JObj [("inventory", JArr [
      JObj [("Id", JStr "3"); ("Name", JStr "Hours"); ("Sku", JNull);
            ("QtyOnHand", JNum 5); ("UnitPrice", JNull);
            ("Type", JStr "Inventory"); ("Active", JNull)]])]).
Proof. vm_compute. reflexivity. Qed.

(** C6 as worded fails on two inputs: an invoice without [CustomerRef]
    gets the customer whose [Id] is [null], and an unmatched invoice with
    a line item whose [SalesItemLineDetail] is [null] makes the handler
    raise. *)
Lemma C6_counterexample :
  fst (customer_invoices sample_env (serve ghost_upstream) (stored with_realm)) =
    Ok (JObj [("customer_invoices", JArr [
      JObj [("customer", JStr "Ghost"); ("customer_email", JNull);
            ("invoice_date", JNull); ("invoice_due_date", JNull);
            ("location_of_sale", JNull); ("invoice_no", JStr "1");
            ("lines", JArr [])]])]) /\
  fst (customer_invoices sample_env (serve null_detail_upstream) (stored with_realm)) =
    Raise AttributeError.
Proof. split; vm_compute; reflexivity. Qed.

(** The amended C6 at an invoice that refers to the unknown customer 404. *)
Lemma C6_witness :
  invoice_entry [(JStr "1", JObj [("Id", JStr "1")])]
    (JObj [("DocNumber", JStr "1002");
           ("CustomerRef", JObj [("value", JStr "404")]);
           ("Line", JArr [JObj [("DetailType", JStr "SubTotalLineDetail");
                                ("Amount", JNum 7)]])]) =
    Ok (JObj [("customer", JNull); ("customer_email", JNull);
              ("invoice_date", JNull); ("invoice_due_date", JNull);
              ("location_of_sale", JNull); ("invoice_no", JStr "1002");
              ("lines", JArr [JObj [("type", JStr "SubTotalLineDetail");
                                    ("name", JNull); ("qty", JNull);
                                    ("rate", JNull); ("amount", JNum 7)]])]).
Proof.
  exact (C6_unmatched_customer_gives_null_fields
           [(JStr "1", JObj [("Id", JStr "1")])]
           [("DocNumber", JStr "1002");
            ("CustomerRef", JObj [("value", JStr "404")]);
            ("Line", JArr [JObj [("DetailType", JStr "SubTotalLineDetail");
                                 ("Amount", JNum 7)]])]
           [("value", JStr "404")] JNull
           [[("DetailType", JStr "SubTotalLineDetail"); ("Amount", JNum 7)]]
           (or_intror eq_refl) eq_refl eq_refl eq_refl eq_refl eq_refl).
Defined.

(** The joined view of the sample: a matched and an unmatched invoice. *)
Example joined_view_of_the_sample :
  fst (customer_invoices sample_env (serve sample_upstream) (stored with_realm)) =
    Ok (JObj [("customer_invoices", JArr [
      JObj [("customer", JStr "Ana"); ("customer_email", JStr "ana@example.com");
            ("invoice_date", JNull); ("invoice_due_date", JNull);
            ("location_of_sale", JStr "X"); ("invoice_no", JStr "1001");
            ("lines", JArr [JObj [("type", JStr "SalesItemLineDetail");
                                  ("name", JStr "Hours"); ("qty", JNum 2);
                                  ("rate", JNum 50); ("amount", JNum 100)]])];
      JObj [("customer", JNull); ("customer_email", JNull);
            ("invoice_date", JNull); ("invoice_due_date", JNull);
            ("location_of_sale", JStr "Z"); ("invoice_no", JStr "1002");
            ("lines", JArr [JObj [("type", JStr "SubTotalLineDetail");
                                  ("name", JNull); ("qty", JNull);
                                  ("rate", JNull); ("amount", JNum 7)]])]])]).
Proof. vm_compute. reflexivity. Qed.

(** C7 at a body without [CustomerRef], at a created invoice (status
    201) and at an upstream failure (status 500). *)
Lemma C7_witness :
  create_invoice_endpoint sample_env (serve sample_upstream)
    (JObj [("Line", JArr [])]) (stored with_realm) =
    (Raise RequestValidationError, stored with_realm) /\
  create_invoice sample_env (serve sample_upstream) sample_model (stored with_realm) =
    (Ok (JObj [("Invoice", JObj [("Id", JStr "12")])]),
     after_call (stored with_realm)
       (invoice_request sample_client (model_dict sample_model))) /\
  create_invoice sample_env (serve (with_lists [] [])) sample_model (stored with_realm) =
    (Ok (JObj [("error", JStr "boom")]),
     after_call (stored with_realm)
       (invoice_request sample_client (model_dict sample_model))).
Proof.
  destruct (C7_create_invoice_validates_then_forwards
              sample_env (serve sample_upstream) (stored with_realm)) as (H1 & _ & H3).
  destruct (C7_create_invoice_validates_then_forwards
              sample_env (serve (with_lists [] [])) (stored with_realm)) as (_ & _ & H3').
  split; [|split].
  - apply H1. by left.
  - destruct (H3 sample_client sample_model sample_client_built) as [_ H].
    apply H; [by right|vm_compute; reflexivity].
  - destruct (H3' sample_client sample_model sample_client_built) as [H _].
    by apply H.
Defined.

(** A body that passes the check, and what is sent upstream for it. *)
Example validate_sample_payload :
  validate (JObj [("CustomerRef", JObj [("value", JStr "1")]);
                  ("Line", JArr [JObj [("Amount", JNum 100);
                                       ("DetailType", JStr "SalesItemLineDetail");
                                       ("SalesItemLineDetail",
                                        JObj [("ItemRef", JObj [("value", JStr "3")])])]]);
                  ("Memo", JStr "ignored")]) = Some sample_model /\
  model_dict sample_model =
    JObj [("CustomerRef", JObj [("value", JStr "1")]);
          ("Line", JArr [JObj [("Amount", JNum 100);
                               ("DetailType", JStr "SalesItemLineDetail");
                               ("SalesItemLineDetail",
                                JObj [("ItemRef", JObj [("value", JStr "3")])])]])].
Proof. split; reflexivity. Qed.

(** A line item without [Amount] is refused as well, and nothing is sent. *)
Example line_without_amount_refused :
  create_invoice_endpoint sample_env (serve sample_upstream)
    (JObj [("CustomerRef", JObj [("value", JStr "1")]);
           ("Line", JArr [JObj [("DetailType", JStr "SalesItemLineDetail")]])])
    (stored with_realm) =
    (Raise RequestValidationError, stored with_realm).
Proof. reflexivity. Qed.

(** C8 at a store that held another record before. *)
Lemma C8_witness :
  let w' := snd (save_tokens with_realm (stored without_realm)) in
  load_tokens w' = (Ok with_realm, w') /\
  tokens_file w' = Some (dumps with_realm) /\
  (forall w0, tokens_file w0 = None -> load_tokens w0 = (Ok (JObj []), w0)).
Proof. exact (C8_load_after_save with_realm (stored without_realm) eq_refl). Defined.

(** C9 at a record that never recorded a realm, with [COMPANY_ID] 9130. *)
Lemma C9_witness :
  get_qb_client sample_env (stored without_realm) =
    (Ok (Some {| access_token := JStr "old"; realm_id := JStr "9130";
                 base_url := "https://sandbox-quickbooks.api.intuit.com/v3/company" |}),
     stored without_realm) /\
  fst (get_customers sample_env (serve sample_upstream) (stored without_realm)) =
    Ok (JObj [("customers", JArr (map (project customer_keys) sample_customer_records))]).
Proof.
  destruct (C9_realm_falls_back_to_company_id
              sample_env (serve sample_upstream) (stored without_realm)
              [("access_token", JStr "old")]) as [_ H]; [vm_compute; reflexivity|].
  destruct (H "9130" eq_refl eq_refl eq_refl) as (H1 & _ & H3); [done|].
  split; [exact H1|].
  rewrite (H3 sample_customer_records); [done|vm_compute; reflexivity..].
Defined.

(** C10 at a customer without [Id], a matched customer with a [null]
    email object and a line item with a [null] detail. *)
Lemma C10_witness :
  raises (fst (customer_invoices sample_env (serve no_id_upstream) (stored with_realm))) /\
  raises (fst (customer_invoices sample_env (serve null_email_upstream) (stored with_realm))) /\
  raises (fst (customer_invoices sample_env (serve null_detail_upstream) (stored with_realm))).
Proof.
  split; [|split].
  - destruct (C10_joined_view_raises_on_null_and_missing_id
                sample_env (serve no_id_upstream) (stored with_realm) sample_client
                sample_client_built eq_refl) as [H _].
    apply (H [JObj [("DisplayName", JStr "Ana")]] [("DisplayName", JStr "Ana")]);
      [vm_compute; reflexivity|constructor|reflexivity].
  - destruct (C10_joined_view_raises_on_null_and_missing_id
                sample_env (serve null_email_upstream) (stored with_realm) sample_client
                sample_client_built eq_refl) as [_ H].
    eapply (H _ _ _ [("CustomerRef", JObj [("value", JStr "1")])]);
      [vm_compute; reflexivity|vm_compute; reflexivity|reflexivity
      |vm_compute; reflexivity|constructor|].
    left. by eexists _, _, _.
  - destruct (C10_joined_view_raises_on_null_and_missing_id
                sample_env (serve null_detail_upstream) (stored with_realm) sample_client
                sample_client_built eq_refl) as [_ H].
    eapply (H _ _ _ [("CustomerRef", JObj [("value", JStr "404")]);
                     ("Line", JArr [JObj [("SalesItemLineDetail", JNull)]])]);
      [vm_compute; reflexivity|vm_compute; reflexivity|reflexivity
      |vm_compute; reflexivity|constructor|].
    right. eexists _, [("SalesItemLineDetail", JNull)].
    split; [reflexivity|]. split; [constructor|reflexivity].
Defined.

(** The exceptions raised at these three inputs. *)
Example joined_view_exceptions :
  fst (customer_invoices sample_env (serve no_id_upstream) (stored with_realm)) =
    Raise KeyError /\
  fst (customer_invoices sample_env (serve null_email_upstream) (stored with_realm)) =
    Raise AttributeError /\
  fst (customer_invoices sample_env (serve null_detail_upstream) (stored with_realm)) =
    Raise AttributeError.
Proof. repeat split; vm_compute; reflexivity. Qed.

(** * Further properties of the handlers *)

(** ** What a handler touches *)

Lemma footprint_ret {A : Type} (a : A) : footprint 0 (mret a : M A).
Proof. intros w. split; [done|]. exists []. by rewrite app_nil_r. Qed.

Lemma footprint_lift {A : Type} (r : Res A) : footprint 0 (lift r).
Proof. intros w. split; [done|]. exists []. by rewrite app_nil_r. Qed.

Lemma footprint_load_tokens : footprint 0 load_tokens.
Proof.
  intros w. rewrite load_tokens_world. split; [done|].
  exists []. by rewrite app_nil_r.
Qed.

Lemma footprint_http (service : list Request -> Request -> Response) (r : Request) :
  footprint 1 (http service r).
Proof. intros w. split; [done|]. by exists [r]. Qed.

Lemma footprint_le {A : Type} (n k : nat) (m : M A) :
  (n <= k)%nat -> footprint n m -> footprint k m.
Proof.
  intros Hle H w. destruct (H w) as (Hf & new & Hc & Hn).
  split; [done|]. exists new. split; [done|lia].
Qed.

Lemma footprint_bind {A B : Type} (n k : nat) (m : M A) (f : A -> M B) :
  footprint n m -> (forall a, footprint k (f a)) -> footprint (n + k) (m ≫= f).
Proof.
  intros Hm Hf w. unfold mbind, M_bind.
  destruct (Hm w) as (Hfile & new & Hc & Hn).
  destruct (m w) as [[a|e] w1]; cbn in *.
  - destruct (Hf a w1) as (Hfile' & new' & Hc' & Hn'). split; [congruence|].
    exists (new ++ new'). rewrite Hc', Hc, <- app_assoc, length_app.
    split; [done|lia].
  - split; [done|]. exists new. split; [done|lia].
Qed.

Lemma footprint_get_qb_client (env : Env) : footprint 0 (get_qb_client env).
Proof.
  unfold get_qb_client.
  apply (footprint_bind 0 0); [apply footprint_load_tokens|]. intros tokens.
  apply (footprint_bind 0 0); [apply footprint_lift|]. intros token.
  apply (footprint_bind 0 0); [apply footprint_lift|]. intros stored.
  destruct (_ || _); apply footprint_ret.
Qed.

(** Closes a goal [footprint n m] for a handler body by following its
    binds, branches and calls. *)
Ltac footprint_steps :=
  repeat first
    [ apply footprint_ret
    | apply footprint_lift
    | apply footprint_load_tokens
    | apply (footprint_bind 0 0); [solve [footprint_steps]|intros ?]
    | match goal with
      | |- footprint _ (if ?b then _ else _) => destruct b
      | |- footprint _ (match ?x with Some _ => _ | None => _ end) => destruct x
      end ].

Lemma footprint_list_handler (service : list Request -> Request -> Response)
    (q : Request) (k : Response -> M json) :
  (forall r, footprint 0 (k r)) -> footprint 1 (http service q ≫= k).
Proof. intros Hk. apply (footprint_bind 1 0); [apply footprint_http|done]. Qed.

(** X1.  The six data handlers and the endpoint of [POST /create-invoice]
    never write the token file, whatever the upstream answers and also
    when they raise; all but the joined view append at most one call to
    the log, the joined view at most two, and the calls made before stay
    in place. *)
Theorem X1_data_handlers_footprint
    (env : Env) (service : list Request -> Request -> Response) :
  footprint 1 (customer_info env service) /\
  footprint 1 (get_customers env service) /\
  footprint 1 (get_invoices env service) /\
  footprint 2 (customer_invoices env service) /\
  (forall m, footprint 1 (create_invoice env service m)) /\
  (forall payload, footprint 1 (create_invoice_endpoint env service payload)) /\
  footprint 1 (get_inventory env service).
Proof.
  assert (Hcreate : forall m, footprint 1 (create_invoice env service m)).
  { intros m. unfold create_invoice.
    apply (footprint_bind 0 1); [apply footprint_get_qb_client|]. intros [qb|].
    - apply footprint_list_handler. intros r. footprint_steps.
    - apply (footprint_le 0); [lia|apply footprint_ret]. }
  split_and!; try done.
  - unfold customer_info.
    apply (footprint_bind 0 1); [apply footprint_get_qb_client|]. intros [qb|].
    + apply footprint_list_handler. intros r. footprint_steps.
    + apply (footprint_le 0); [lia|apply footprint_ret].
  - unfold get_customers.
    apply (footprint_bind 0 1); [apply footprint_get_qb_client|]. intros [qb|].
    + apply footprint_list_handler. intros r. footprint_steps.
    + apply (footprint_le 0); [lia|apply footprint_ret].
  - unfold get_invoices.
    apply (footprint_bind 0 1); [apply footprint_get_qb_client|]. intros [qb|].
    + apply footprint_list_handler. intros r. footprint_steps.
    + apply (footprint_le 0); [lia|apply footprint_ret].
  - unfold customer_invoices.
    apply (footprint_bind 0 2); [apply footprint_get_qb_client|]. intros [qb|].
    + apply (footprint_bind 1 1); [apply footprint_http|]. intros r1.
      destruct (negb _); [apply (footprint_le 0); [lia|apply footprint_ret]|].
      apply (footprint_bind 0 1); [apply footprint_lift|]. intros data.
      apply (footprint_bind 0 1); [apply footprint_lift|]. intros customers.
      apply (footprint_bind 0 1); [apply footprint_lift|]. intros cs.
      apply (footprint_bind 0 1); [apply footprint_lift|]. intros customer_map.
      apply footprint_list_handler. intros r2. footprint_steps.
    + apply (footprint_le 0); [lia|apply footprint_ret].
  - intros payload. unfold create_invoice_endpoint.
    destruct (validate payload); [done|].
    apply (footprint_le 0); [lia|apply footprint_lift].
  - unfold get_inventory.
    apply (footprint_bind 0 1); [apply footprint_get_qb_client|]. intros [qb|].
    + apply footprint_list_handler. intros r. footprint_steps.
    + apply (footprint_le 0); [lia|apply footprint_ret].
Qed.
(** ** The calls a handler makes *)

Lemma sent_by_query (qb : QuickBooksClient) (query_str : string) :
  sent_by qb (query_request qb query_str).
Proof.
  split; [done|]. split; [done|]. cbn. rewrite !elem_of_cons. auto.
Qed.

Lemma sent_by_company_info (qb : QuickBooksClient) :
  sent_by qb (company_info_request qb).
Proof.
  split; [done|]. split; [done|]. cbn. rewrite !elem_of_cons. auto.
Qed.

Lemma sent_by_invoice (qb : QuickBooksClient) (payload : json) :
  sent_by qb (invoice_request qb payload).
Proof.
  split; [done|]. split; [done|]. cbn. rewrite !elem_of_cons. auto.
Qed.

(** X2.  With a client, every data handler sends its request exactly once
    whatever the upstream answers, also when the handler then raises:
    nothing is retried and nothing is skipped.  The joined view sends the
    customers query first and the invoices query at most once after it.
    Each of these requests carries the bearer token of the client, asks
    for JSON and names the client's realm in its URL; the body of a
    created invoice goes out as [application/json], a query as
    [application/text]. *)
Theorem X2_each_request_is_sent_once_with_the_bearer_token
    (env : Env) (service : list Request -> Request -> Response)
    (w : World) (qb : QuickBooksClient) :
  get_qb_client env w = (Ok (Some qb), w) ->
  let q1 := query_request qb "SELECT Id, DisplayName, PrimaryEmailAddr FROM Customer" in
  let q2 := query_request qb "SELECT * FROM Invoice" in
  calls (snd (customer_info env service w)) = calls w ++ [company_info_request qb] /\
  calls (snd (get_customers env service w)) =
    calls w ++ [query_request qb "SELECT * FROM Customer"] /\
  calls (snd (get_invoices env service w)) = calls w ++ [q2] /\
  calls (snd (get_inventory env service w)) =
    calls w ++ [query_request qb "SELECT * FROM Item WHERE Type = 'Inventory'"] /\
  (forall m, calls (snd (create_invoice env service m w)) =
             calls w ++ [invoice_request qb (model_dict m)]) /\
  (calls (snd (customer_invoices env service w)) = calls w ++ [q1] \/
   calls (snd (customer_invoices env service w)) = calls w ++ [q1; q2]) /\
  (forall r, r ∈ [company_info_request qb; q1; q2;
                  query_request qb "SELECT * FROM Customer";
                  query_request qb "SELECT * FROM Item WHERE Type = 'Inventory'"] ->
             sent_by qb r /\
             dict_lookup "Content-Type" (headers r) = Some [Lit "application/text"]) /\
  (forall m, sent_by qb (invoice_request qb (model_dict m)) /\
             dict_lookup "Content-Type" (headers (invoice_request qb (model_dict m))) =
               Some [Lit "application/json"] /\
             List.length (headers (invoice_request qb (model_dict m))) = 3%nat).
Proof.
  intros H q1 q2. split_and!.
  - by rewrite (customer_info_run env service w qb H).
  - by rewrite (get_customers_run env service w qb H).
  - by rewrite (get_invoices_run env service w qb H).
  - by rewrite (get_inventory_run env service w qb H).
  - intros m. by rewrite (create_invoice_run env service w qb m H).
  - rewrite (customer_invoices_run env service w qb H). fold q1 q2.
    destruct (negb _); [by left|].
    destruct (_ ≫= _) as [customer_map|e]; [|by left].
    right. cbn. by rewrite <- app_assoc.
  - intros r Hr. rewrite !elem_of_cons, elem_of_nil in Hr.
    destruct Hr as [->|[->|[->|[->|[->|[]]]]]];
      (split; [apply sent_by_query || apply sent_by_company_info|done]).
  - intros m. split; [apply sent_by_invoice|done].
Qed.

(** ** Upstream failures and empty answers *)

(** X3.  With a client, when the upstream answers the query of a list
    handler with a status other than 200, the handler returns [{error:
    raw body}] after that one call, without decoding the body. *)
Theorem X3_list_handlers_surface_upstream_failure
    (env : Env) (service : list Request -> Request -> Response)
    (w : World) (qb : QuickBooksClient) :
  get_qb_client env w = (Ok (Some qb), w) ->
  (let q := query_request qb "SELECT * FROM Customer" in
   status_code (service (calls w) q) <> 200 ->
   get_customers env service w =
     (Ok (JObj [("error", JStr (text (service (calls w) q)))]), after_call w q)) /\
  (let q := query_request qb "SELECT * FROM Invoice" in
   status_code (service (calls w) q) <> 200 ->
   get_invoices env service w =
     (Ok (JObj [("error", JStr (text (service (calls w) q)))]), after_call w q)) /\
  (let q := query_request qb "SELECT * FROM Item WHERE Type = 'Inventory'" in
   status_code (service (calls w) q) <> 200 ->
   get_inventory env service w =
     (Ok (JObj [("error", JStr (text (service (calls w) q)))]), after_call w q)).
Proof.
  intros H. split_and!; intros q Hs; apply Z.eqb_neq in Hs.
  - rewrite (get_customers_run env service w qb H). fold q. by rewrite Hs.
  - rewrite (get_invoices_run env service w qb H). fold q. by rewrite Hs.
  - rewrite (get_inventory_run env service w qb H). fold q. by rewrite Hs.
Qed.

(** X4.  With a client, the joined view stops at the first failing query.
    When the customers query is answered with a status other than 200 the
    handler returns that body under [error] and the invoices query is
    never sent.  When the customers are read and the invoices query fails,
    the handler returns the body of that second answer under [error]. *)
Theorem X4_joined_view_stops_at_the_first_failure
    (env : Env) (service : list Request -> Request -> Response)
    (w : World) (qb : QuickBooksClient) :
  get_qb_client env w = (Ok (Some qb), w) ->
  let q1 := query_request qb "SELECT Id, DisplayName, PrimaryEmailAddr FROM Customer" in
  let q2 := query_request qb "SELECT * FROM Invoice" in
  let r1 := service (calls w) q1 in
  let r2 := service (calls w ++ [q1]) q2 in
  (status_code r1 <> 200 ->
   customer_invoices env service w =
     (Ok (JObj [("error", JStr (text r1))]), after_call w q1)) /\
  (forall cs customer_map,
     status_code r1 = 200 ->
     query_result r1 "Customer" = Ok cs ->
     build_customer_map cs [] = Ok customer_map ->
     status_code r2 <> 200 ->
     customer_invoices env service w =
       (Ok (JObj [("error", JStr (text r2))]), after_call (after_call w q1) q2)).
Proof.
  intros H q1 q2 r1 r2. rewrite (customer_invoices_run env service w qb H).
  fold q1 q2 r1. split.
  - intros Hs. apply Z.eqb_neq in Hs. by rewrite Hs.
  - intros cs customer_map Hs Hq Hm Hs2. apply Z.eqb_neq in Hs2.
    rewrite Hs, Hq. cbn [negb Z.eqb Pos.eqb]. rewrite res_bind_ok, Hm.
    change (calls (after_call w q1)) with (calls w ++ [q1]). fold r2.
    by rewrite Hs2.
Qed.




(** ** The refresh *)

(** The refresh handler, branch by branch. *)
Lemma refresh_run (env : Env) (service : list Request -> Request -> Response)
    (w : World) (rt : string) :
  REFRESH_TOKEN env = Some rt -> rt <> EmptyString ->
  let q := refresh_request env rt in
  let r := service (calls w) q in
  refresh_access_token env service w =
    if negb (status_code r =? 200) then (Ok (error_body r), after_call w q)
    else
      match tokens ← response_json r;
            old_tokens ← fst (load_tokens w);
            merge_realm old_tokens tokens with
      | Ok tokens =>
          (Ok (JObj [("success", JBool true); ("tokens", tokens)]),
           {| tokens_file := Some (dumps tokens); calls := calls w ++ [q] |})
      | Raise e => (Raise e, after_call w q)
      end.
Proof.
  intros Hrt Hne q r. unfold refresh_access_token. rewrite Hrt.
  destruct rt as [|c rt]; [done|].
  unfold http, lift, merge_realm.
  unfold mbind, M_bind, mret, M_ret, Res_bind, Res_ret. cbn beta iota.
  fold q r. destruct (negb _); [done|].
  destruct (response_json r) as [tokens|]; [|done].
  rewrite load_tokens_after_call.
  destruct (fst (load_tokens w)) as [old|]; [|done]. cbn [fst snd].
  destruct (py_in "realmId" old) as [[]|]; [|done|done].
  destruct (getitem old "realmId") as [realm|]; [|done].
  by destruct (setitem tokens "realmId" realm).
Qed.

(** X7.  Without a refresh token in the environment, unset or empty, the
    refresh handler returns its error message and does nothing: no call to
    the provider, the store untouched.  With one, a provider status other
    than 200 gives [{error: raw body}] after the one call and leaves the
    store untouched as well. *)
Theorem X7_refresh_failures_leave_the_store
    (env : Env) (service : list Request -> Request -> Response) (w : World) :
  (REFRESH_TOKEN env = None \/ REFRESH_TOKEN env = Some EmptyString ->
   refresh_access_token env service w =
     (Ok (JObj [("error", JStr "No hay refresh_token en el entorno")]), w)) /\
  (forall rt,
     REFRESH_TOKEN env = Some rt -> rt <> EmptyString ->
     let q := refresh_request env rt in
     status_code (service (calls w) q) <> 200 ->
     refresh_access_token env service w =
       (Ok (JObj [("error", JStr (text (service (calls w) q)))]), after_call w q) /\
     tokens_file (after_call w q) = tokens_file w).
Proof.
  split.
  - unfold refresh_access_token. by intros [-> | ->].
  - intros rt Hrt Hne q Hs. apply Z.eqb_neq in Hs.
    rewrite (refresh_run env service w rt Hrt Hne). fold q. by rewrite Hs.
Qed.

(** X8.  The refresh handler writes the token file only when it succeeds,
    and then with exactly the tokens it returns to the caller: in every
    other outcome, an error answer or an exception, the file is as it was,
    so the tokens a provider granted are lost when the stored file cannot
    be read.  It calls the provider at most once, and always with the
    refresh token of the environment. *)
Theorem X8_refresh_writes_only_what_it_returns
    (env : Env) (service : list Request -> Request -> Response) (w : World) :
  let result := fst (refresh_access_token env service w) in
  let w' := snd (refresh_access_token env service w) in
  (tokens_file w' = tokens_file w \/
   exists tokens,
     result = Ok (JObj [("success", JBool true); ("tokens", tokens)]) /\
     tokens_file w' = Some (dumps tokens)) /\
  (calls w' = calls w \/
   exists rt, REFRESH_TOKEN env = Some rt /\
              calls w' = calls w ++ [refresh_request env rt]).
Proof.
  intros result w'. unfold result, w'. clear result w'.
  destruct (REFRESH_TOKEN env) as [rt|] eqn:Hrt.
  - destruct (decide (rt = EmptyString)) as [->|Hne].
    + unfold refresh_access_token. rewrite Hrt. split; by left.
    + rewrite (refresh_run env service w rt Hrt Hne).
      destruct (negb _); [split; [by left|right; by exists rt]|].
      destruct (_ ≫= _) as [tokens|e]; cbn [fst snd].
      * split; [right; by exists tokens|right; by exists rt].
      * split; [by left|right; by exists rt].
  - unfold refresh_access_token. rewrite Hrt. split; by left.
Qed.

(** X10.  Refresh and client compose.  After a successful refresh over a
    stored record with a realm, the client is built from the provider's new
    access token and the stored realm.  A refresh never supplies a realm
    of its own: over a store without [realmId], with a provider answer
    without [realmId] and no [COMPANY_ID], the store stays unusable and no
    client is built. *)
Theorem X10_client_after_refresh
    (env : Env) (service : list Request -> Request -> Response) (w : World)
    (rt : string) (resp old : dict) (token : json) :
  REFRESH_TOKEN env = Some rt -> rt <> EmptyString ->
  let q := refresh_request env rt in
  status_code (service (calls w) q) = 200 ->
  loads (text (service (calls w) q)) = Some (JObj resp) ->
  fst (load_tokens w) = Ok (JObj old) ->
  dict_lookup "access_token" resp = Some token -> truthy token = true ->
  let w' := snd (refresh_access_token env service w) in
  (forall realm,
     dict_lookup "realmId" old = Some realm -> truthy realm = true ->
     get_qb_client env w' =
       (Ok (Some {| access_token := token; realm_id := realm;
                    base_url := "https://sandbox-quickbooks.api.intuit.com/v3/company" |}),
        w')) /\
  (dict_lookup "realmId" old = None -> dict_lookup "realmId" resp = None ->
   truthy (getenv (COMPANY_ID env)) = false ->
   get_qb_client env w' = (Ok None, w')).
Proof.
  intros Hrt Hne q Hs Hj Hold Ht Htt w'.
  pose proof (loads_wf _ _ Hj) as Hresp.
  pose proof (load_tokens_wf _ _ Hold) as Hwold.
  assert (Hrun : forall record,
            merge_realm (JObj old) (JObj resp) = Ok (JObj record) ->
            wf (JObj record) = true ->
            fst (load_tokens w') = Ok (JObj record)).
  { intros record Hm Hwf. unfold w'.
    rewrite (refresh_run env service w rt Hrt Hne). fold q. rewrite Hs.
    unfold response_json. rewrite Hj, Hold. cbn [negb Z.eqb Pos.eqb].
    rewrite !res_bind_ok, Hm. cbn [snd]. unfold load_tokens. cbn [tokens_file].
    by rewrite (loads_dumps _ Hwf). }
  split.
  - intros realm Hr Hrt'.
    assert (Hm : merge_realm (JObj old) (JObj resp) =
                 Ok (JObj (dict_set "realmId" realm resp))).
    { unfold merge_realm. cbn. by rewrite Hr. }
    pose proof (Hrun _ Hm (dict_set_wf _ _ _ Hresp (dict_lookup_wf _ _ _ Hwold Hr))) as Hl.
    rewrite (get_qb_client_run env w' _ Hl), !dict_lookup_set.
    change (String.eqb "access_token" "realmId") with false.
    change (String.eqb "realmId" "realmId") with true. cbv iota.
    rewrite Ht. cbn [from_option id]. unfold py_or. by rewrite Htt, !Hrt'.
  - intros Hr Hr' Hco.
    assert (Hm : merge_realm (JObj old) (JObj resp) = Ok (JObj resp)).
    { unfold merge_realm. cbn. by rewrite Hr. }
    rewrite (get_qb_client_run env w' _ (Hrun _ Hm Hresp)), Hr', Ht.
    cbn [from_option id]. unfold py_or. cbn [truthy]. by rewrite Htt, Hco.
Qed.
(** ** The customer lookup *)

Lemma key_eqb_sym (a b : json) : key_eqb a b = key_eqb b a.
Proof.
  destruct a as [|x|n|s| |], b as [|y|m|t| |]; cbn; try done.
  - by destruct x, y.
  - apply Z.eqb_sym.
  - apply String.eqb_sym.
Qed.

Lemma key_eqb_trans (a b c : json) :
  key_eqb a b = true -> key_eqb b c = true -> key_eqb a c = true.
Proof.
  destruct a as [|x|n|s| |], b as [|y|m|t| |], c as [|z|p|u| |]; cbn; try done;
    rewrite ?Z.eqb_eq, ?String.eqb_eq, ?Bool.eqb_true_iff; try congruence.
  all: try (destruct x; destruct y; (done || lia)).
  all: try (destruct y; destruct z; (done || lia)).
  all: try (destruct x; destruct z; cbn; (done || lia)).
  all: destruct y; lia.
Qed.

Lemma kmap_lookup_set (k k' v : json) (m : kmap) :
  kmap_lookup k (kmap_set k' v m) =
  if key_eqb k k' then Some v else kmap_lookup k m.
Proof.
  induction m as [|[k2 v2] m IH]; cbn; [done|].
  destruct (key_eqb k' k2) eqn:E2; cbn.
  - destruct (key_eqb k k') eqn:E.
    + by rewrite (key_eqb_trans k k' k2 E E2).
    + destruct (key_eqb k k2) eqn:E3; [|done].
      rewrite key_eqb_sym in E2.
      by rewrite (key_eqb_trans k k2 k' E3 E2) in E.
  - rewrite IH. destruct (key_eqb k k2) eqn:E3; [|done].
    destruct (key_eqb k k') eqn:E; [|done].
    rewrite key_eqb_sym in E.
    by rewrite (key_eqb_trans k' k k2 E E3) in E2.
Qed.

Lemma build_customer_map_lookup (cs : list json) (m0 m : kmap) (k : json) :
  build_customer_map cs m0 = Ok m ->
  kmap_lookup k m =
  match last_with_id k cs with
  | Some c => Some c
  | None => kmap_lookup k m0
  end.
Proof.
  revert m0. induction cs as [|c cs IH]; intros m0; cbn [build_customer_map last_with_id].
  - by intros [= ->].
  - destruct (getitem c "Id") as [k'|]; [|done]. rewrite res_bind_ok.
    destruct (hashable k'); [|done]. intros H. rewrite (IH _ H).
    destruct (last_with_id k cs); [done|]. rewrite kmap_lookup_set.
    by destruct (key_eqb k k').
Qed.

Lemma customer_ok_getitem (c : json) :
  customer_ok c = true <-> exists k, getitem c "Id" = Ok k /\ hashable k = true.
Proof.
  unfold customer_ok, getitem. destruct c as [| | | | |d]; cbn;
    try (split; [done|by intros (? & [=] & _)]).
  destruct (dict_lookup "Id" d) as [k|]; cbn.
  - split; [by exists k|by intros (? & [= <-] & ?)].
  - split; [done|by intros (? & [=] & _)].
Qed.

Lemma build_customer_map_ok (cs : list json) (m0 : kmap) :
  (exists m, build_customer_map cs m0 = Ok m) <-> forallb customer_ok cs = true.
Proof.
  revert m0. induction cs as [|c cs IH]; intros m0; cbn [build_customer_map forallb].
  - split; [done|]. intros _. by eexists.
  - rewrite andb_true_iff, customer_ok_getitem. split.
    + intros [m H]. destruct (getitem c "Id") as [k|]; [|done].
      rewrite res_bind_ok in H. destruct (hashable k) eqn:Hh; [|done].
      split; [by exists k|]. apply (IH (kmap_set k c m0)). by exists m.
    + intros [(k & -> & Hh) Hcs]. rewrite res_bind_ok, Hh. by apply IH.
Qed.

Lemma build_customer_map_fails (cs : list json) (m0 : kmap) :
  forallb customer_ok cs = false ->
  exists e, (e = KeyError \/ e = TypeError) /\ build_customer_map cs m0 = Raise e.
Proof.
  revert m0. induction cs as [|c cs IH]; intros m0; cbn [build_customer_map forallb];
    [done|].
  rewrite andb_false_iff. intros Hbad.
  destruct c as [| | | | |d]; cbn [getitem]; try (exists TypeError; by split; [right|]).
  destruct (dict_lookup "Id" d) as [k|] eqn:Hk; [|exists KeyError; by split; [left|]].
  rewrite res_bind_ok. destruct (hashable k) eqn:Hh; [|exists TypeError; by split; [right|]].
  destruct Hbad as [Hc|Hcs]; [|by apply IH].
  unfold customer_ok in Hc. rewrite Hk in Hc. cbn in Hc. congruence.
Qed.

(** X11.  The customer lookup is built exactly when every customer is an
    object with an [Id] that can be a key (a string, a number, a boolean
    or [null]).  With a client and a 200 answer to the customers query,
    one customer that is not of this kind makes the joined view raise
    [KeyError] or [TypeError] after that query: the invoices are never
    asked for, whatever the other customers are. *)
Theorem X11_customer_lookup_is_built_iff_ids_are_keys
    (env : Env) (service : list Request -> Request -> Response)
    (w : World) (cs : list json) :
  ((exists customer_map, build_customer_map cs [] = Ok customer_map) <->
   forallb customer_ok cs = true) /\
  (forall qb,
     get_qb_client env w = (Ok (Some qb), w) ->
     let q1 := query_request qb "SELECT Id, DisplayName, PrimaryEmailAddr FROM Customer" in
     status_code (service (calls w) q1) = 200 ->
     query_result (service (calls w) q1) "Customer" = Ok cs ->
     forallb customer_ok cs = false ->
     exists e, (e = KeyError \/ e = TypeError) /\
               customer_invoices env service w = (Raise e, after_call w q1)).
Proof.
  split; [apply build_customer_map_ok|].
  intros qb H q1 Hs Hq Hbad.
  destruct (build_customer_map_fails cs [] Hbad) as (e & He & Hm).
  exists e. split; [done|].
  rewrite (customer_invoices_run env service w qb H). fold q1.
  by rewrite Hs, Hq, res_bind_ok, Hm.
Qed.

(** X12.  In the customer lookup the last record wins: looking up an id
    gives the last customer of the upstream list whose [Id] equals it, and
    nothing when no customer has it.  Equality is Python's, under which
    [True] and [1] are the same key. *)
Theorem X12_customer_lookup_gives_the_last_customer_with_the_id
    (cs : list json) (customer_map : kmap) (k : json) :
  build_customer_map cs [] = Ok customer_map ->
  kmap_lookup k customer_map = last_with_id k cs.
Proof.
  intros H. rewrite (build_customer_map_lookup cs [] customer_map k H).
  by destruct (last_with_id k cs).
Qed.

(** ** Entries of the joined view *)


(** X14.  The first steps of an entry fail on ill-typed references, each
    with its own exception: an invoice that is not an object, or whose
    [CustomerRef] is there but is not an object ([null] included), raises
    [AttributeError]; a [CustomerRef.value] that is a list or an object
    cannot be a key and raises [TypeError]. *)
Theorem X14_ill_typed_customer_reference_raises (customer_map : kmap) :
  (forall inv, as_dict inv = None ->
     invoice_entry customer_map inv = Raise AttributeError) /\
  (forall d v, dict_lookup "CustomerRef" d = Some v -> as_dict v = None ->
     invoice_entry customer_map (JObj d) = Raise AttributeError) /\
  (forall d ref v,
     dict_lookup "CustomerRef" d = Some (JObj ref) ->
     dict_lookup "value" ref = Some v -> hashable v = false ->
     invoice_entry customer_map (JObj d) = Raise TypeError).
Proof.
  split_and!.
  - intros inv Hi. by destruct inv.
  - intros d v Hd Hv. unfold invoice_entry.
    rewrite (get_obj d "CustomerRef"), Hd, res_bind_ok. by destruct v.
  - intros d ref v Hd Hr Hv. unfold invoice_entry.
    rewrite (get_obj d "CustomerRef"), Hd, res_bind_ok.
    rewrite (get_obj ref "value"), Hr, res_bind_ok. unfold kmap_get.
    cbn [from_option id]. by rewrite Hv.
Qed.
(** ** The stored record and the environment *)

Lemma bind_congr {A B : Type} (m1 m2 : M A) (f : A -> M B) (w : World) :
  m1 w = m2 w -> (m1 ≫= f) w = (m2 ≫= f) w.
Proof. intros H. unfold mbind, M_bind. by rewrite H. Qed.

(** X15.  A realm in the stored record takes precedence over [COMPANY_ID]:
    when the record has a non-empty [realmId], the client and with it all
    six data handlers are the same under any two environments, so no
    environment variable changes what they send or return. *)
Theorem X15_stored_realm_makes_the_environment_irrelevant
    (service : list Request -> Request -> Response) (w : World) (tokens : dict) :
  fst (load_tokens w) = Ok (JObj tokens) ->
  truthy (from_option id JNull (dict_lookup "realmId" tokens)) = true ->
  forall env1 env2,
    get_qb_client env1 w = get_qb_client env2 w /\
    customer_info env1 service w = customer_info env2 service w /\
    get_customers env1 service w = get_customers env2 service w /\
    get_invoices env1 service w = get_invoices env2 service w /\
    customer_invoices env1 service w = customer_invoices env2 service w /\
    (forall m, create_invoice env1 service m w = create_invoice env2 service m w) /\
    get_inventory env1 service w = get_inventory env2 service w.
Proof.
  intros H Hr env1 env2.
  assert (Hc : get_qb_client env1 w = get_qb_client env2 w).
  { rewrite !(get_qb_client_run _ w tokens H). unfold py_or. by rewrite Hr. }
  split_and!; [done|..]; intros; by apply bind_congr.
Qed.


(** ** The text of the token file *)

Lemma printable_app (a b : string) :
  printable (a +:+ b) = printable a && printable b.
Proof.
  induction a as [|c a IH]; [done|].
  rewrite append_cons. cbn [printable]. by rewrite IH, andb_assoc.
Qed.

Lemma printable_escape_char (c : ascii) : printable (escape_char c) = true.
Proof. destruct c as [[] [] [] [] [] [] [] []]; reflexivity. Qed.

Lemma printable_escape (s : string) : printable (escape s) = true.
Proof.
  induction s as [|c s IH]; [done|].
  cbn [escape]. by rewrite printable_app, printable_escape_char, IH.
Qed.

Lemma printable_quote (s : string) : printable (quote s) = true.
Proof.
  unfold quote. cbn [printable]. by rewrite printable_app, printable_escape.
Qed.

Lemma printable_digits (d : uint) : printable (digits d) = true.
Proof. induction d; cbn [digits printable]; by rewrite ?IHd. Qed.

Lemma printable_int_str (n : Z) : printable (int_str n) = true.
Proof.
  destruct n; cbn [int_str printable]; by rewrite printable_digits.
Qed.

Lemma printable_join (l : list string) :
  Forall (fun s => printable s = true) l -> printable (join ", " l) = true.
Proof.
  induction 1 as [|x l Hx Hl IH]; [done|]. destruct l as [|y l]; [done|].
  rewrite join_cons2, !printable_app, Hx, IH. done.
Qed.

Lemma printable_dumps (v : json) : printable (dumps v) = true.
Proof.
  induction v as [|b|n|s|xs IH|kvs IH] using json_ind.
  - done.
  - by destruct b.
  - apply printable_int_str.
  - apply printable_quote.
  - cbn [dumps]. rewrite !printable_app, printable_join; [done|].
    by apply Forall_map.
  - rewrite dumps_obj, !printable_app, printable_join; [done|].
    apply Forall_map. eapply Forall_impl; [exact IH|].
    intros [k x] Hx. unfold member_text. cbn [snd] in Hx.
    by rewrite !printable_app, printable_quote, Hx.
Qed.

(** X17.  Whatever record is saved, the token file then holds printable
    ASCII only: every other character of a string, a line break or a
    control character included, is written as an escape, so the file is
    one line of plain text. *)
Theorem X17_token_file_is_printable_ascii (tokens : json) (w : World) :
  exists file, tokens_file (snd (save_tokens tokens w)) = Some file /\
               printable file = true.
Proof. eexists. split; [reflexivity|]. apply printable_dumps. Qed.

(** X18.  What the store gives can be put back without loss: saving the
    record that was just loaded, from a file written by anyone and
    spaced in any way, leaves a store that loads to the same record. *)
Theorem X18_saving_what_was_loaded_keeps_the_record (w : World) (record : json) :
  fst (load_tokens w) = Ok record ->
  let w' := snd (save_tokens record w) in
  load_tokens w' = (Ok record, w').
Proof.
  intros H w'. unfold load_tokens, w'. cbn [tokens_file snd save_tokens].
  by rewrite (loads_dumps record (load_tokens_wf w record H)).
Qed.
(** ** The body of a created invoice *)




(** ** Records that are not objects *)

Lemma mapR_attribute_error (f : json -> Res json) (xs : list json) (x : json) :
  (forall y, as_dict y = None -> f y = Raise AttributeError) ->
  (forall d, exists o, f (JObj d) = Ok o) ->
  x ∈ xs -> as_dict x = None -> mapR f xs = Raise AttributeError.
Proof.
  intros Hbad Hgood Hin Hx. induction xs as [|y xs IH]; [by apply elem_of_nil in Hin|].
  cbn [mapR]. destruct y as [| | | | |d];
    try (by rewrite Hbad).
  destruct (Hgood d) as [o ->]. rewrite res_bind_ok.
  apply elem_of_cons in Hin as [->|Hin]; [done|]. by rewrite (IH Hin).
Qed.

(** X21.  With a client and a 200 answer, a list handler raises
    [AttributeError] as soon as the list of the entity holds a value that
    is not an object, whatever the other records are: nothing of the
    list is returned. *)
Theorem X21_a_record_that_is_not_an_object_raises
    (env : Env) (service : list Request -> Request -> Response)
    (w : World) (qb : QuickBooksClient) :
  get_qb_client env w = (Ok (Some qb), w) ->
  (forall xs x,
     let q := query_request qb "SELECT * FROM Customer" in
     status_code (service (calls w) q) = 200 ->
     query_result (service (calls w) q) "Customer" = Ok xs ->
     x ∈ xs -> as_dict x = None ->
     get_customers env service w = (Raise AttributeError, after_call w q)) /\
  (forall xs x,
     let q := query_request qb "SELECT * FROM Invoice" in
     status_code (service (calls w) q) = 200 ->
     query_result (service (calls w) q) "Invoice" = Ok xs ->
     x ∈ xs -> as_dict x = None ->
     get_invoices env service w = (Raise AttributeError, after_call w q)) /\
  (forall xs x,
     let q := query_request qb "SELECT * FROM Item WHERE Type = 'Inventory'" in
     status_code (service (calls w) q) = 200 ->
     query_result (service (calls w) q) "Item" = Ok xs ->
     x ∈ xs -> as_dict x = None ->
     get_inventory env service w = (Raise AttributeError, after_call w q)).
Proof.
  intros H. split_and!; intros xs x q Hs Hq Hin Hx.
  - rewrite (get_customers_run env service w qb H). fold q.
    rewrite Hs, Hq. cbn [negb Z.eqb Pos.eqb]. rewrite res_bind_ok.
    rewrite (mapR_attribute_error _ xs x); [done|by intros []|by eexists|done|done].
  - rewrite (get_invoices_run env service w qb H). fold q.
    rewrite Hs, Hq. cbn [negb Z.eqb Pos.eqb]. rewrite res_bind_ok.
    rewrite (mapR_attribute_error _ xs x); [done|by intros []|by eexists|done|done].
  - rewrite (get_inventory_run env service w qb H). fold q.
    rewrite Hs, Hq. cbn [negb Z.eqb Pos.eqb]. rewrite res_bind_ok.
    rewrite (mapR_attribute_error _ xs x); [done|by intros []|by eexists|done|done].
Qed.
(** ** The environment *)

(** X22.  [QBO_BASE] and [REDIRECT_URI] are read from the environment and
    never used: the client always talks to the sandbox address.  The data
    handlers depend on the environment through [COMPANY_ID] alone, and the
    refresh through [CLIENT_ID], [CLIENT_SECRET] and [REFRESH_TOKEN]
    alone: two environments that agree on these give the same result and
    the same world, for every handler, store and upstream. *)
Theorem X22_unused_environment_variables
    (service : list Request -> Request -> Response) (w : World) (env1 env2 : Env) :
  (COMPANY_ID env1 = COMPANY_ID env2 ->
   customer_info env1 service w = customer_info env2 service w /\
   get_customers env1 service w = get_customers env2 service w /\
   get_invoices env1 service w = get_invoices env2 service w /\
   customer_invoices env1 service w = customer_invoices env2 service w /\
   (forall m, create_invoice env1 service m w = create_invoice env2 service m w) /\
   get_inventory env1 service w = get_inventory env2 service w) /\
  (CLIENT_ID env1 = CLIENT_ID env2 -> CLIENT_SECRET env1 = CLIENT_SECRET env2 ->
   REFRESH_TOKEN env1 = REFRESH_TOKEN env2 ->
   refresh_access_token env1 service w = refresh_access_token env2 service w).
Proof.
  split.
  - intros Hc.
    assert (H : get_qb_client env1 w = get_qb_client env2 w).
    { unfold get_qb_client. by rewrite Hc. }
    split_and!; intros; by apply bind_congr.
  - intros H1 H2 H3. unfold refresh_access_token, refresh_request.
    by rewrite H1, H2, H3.
Qed.

(** ** The shape of the joined view *)

Lemma invoice_line_keys (line o : json) :
  invoice_line line = Ok o -> has_keys line_keys o.
Proof.
  unfold invoice_line. intros H.
  repeat match type of H with
         | (?m ≫= _) = Ok _ => destruct m; [rewrite res_bind_ok in H|done]
         end.
  injection H as <-. by eexists.
Qed.

Lemma invoice_lines_keys (lines out : list json) :
  mapR invoice_line lines = Ok out ->
  Forall (has_keys line_keys) out /\ List.length out = List.length lines.
Proof.
  revert out. induction lines as [|l lines IH]; intros out; cbn [mapR].
  - by intros [= <-].
  - destruct (invoice_line l) as [o|] eqn:E; [|done]. rewrite res_bind_ok.
    destruct (mapR invoice_line lines) as [os|]; [|done]. rewrite res_bind_ok.
    intros [= <-]. destruct (IH os eq_refl) as [Hk Hl]. split.
    + constructor; [by apply (invoice_line_keys l)|done].
    + cbn. by rewrite Hl.
Qed.

Lemma mapR_length {A B : Type} (f : A -> Res B) (l : list A) (out : list B) :
  mapR f l = Ok out -> Forall2 (fun x y => f x = Ok y) l out.
Proof.
  revert out. induction l as [|x l IH]; intros out; cbn [mapR].
  - intros [= <-]. constructor.
  - destruct (f x) as [y|] eqn:E; [|done]. rewrite res_bind_ok.
    destruct (mapR f l) as [ys|]; [|done]. rewrite res_bind_ok.
    intros [= <-]. constructor; [done|by apply IH].
Qed.

(** X23.  Whatever the invoice and the lookup, an entry that is produced
    has exactly the seven keys [customer], [customer_email],
    [invoice_date], [invoice_due_date], [location_of_sale], [invoice_no]
    and [lines], in this order, and under [lines] one object per line item
    of the invoice, each with exactly the keys [type], [name], [qty],
    [rate] and [amount].  With a client, when the joined view returns a
    list it holds one such entry per invoice, in the order of the
    invoices. *)
Theorem X23_entries_have_a_fixed_shape
    (env : Env) (service : list Request -> Request -> Response) (w : World) :
  (forall customer_map inv entry,
     invoice_entry customer_map inv = Ok entry ->
     has_keys entry_keys entry /\
     exists lines out,
       get inv "Line" (JArr []) ≫= py_iter = Ok lines /\
       get entry "lines" JNull = Ok (JArr out) /\
       Forall (has_keys line_keys) out /\ List.length out = List.length lines) /\
  (forall qb cs customer_map invs result,
     get_qb_client env w = (Ok (Some qb), w) ->
     let q1 := query_request qb "SELECT Id, DisplayName, PrimaryEmailAddr FROM Customer" in
     let q2 := query_request qb "SELECT * FROM Invoice" in
     let r1 := service (calls w) q1 in
     let r2 := service (calls w ++ [q1]) q2 in
     status_code r1 = 200 -> query_result r1 "Customer" = Ok cs ->
     build_customer_map cs [] = Ok customer_map ->
     status_code r2 = 200 -> query_result r2 "Invoice" = Ok invs ->
     fst (customer_invoices env service w) = Ok result ->
     exists entries,
       result = JObj [("customer_invoices", JArr entries)] /\
       Forall2 (fun inv entry => invoice_entry customer_map inv = Ok entry) invs entries /\
       Forall (has_keys entry_keys) entries).
Proof.
  assert (Hentry : forall customer_map inv entry,
            invoice_entry customer_map inv = Ok entry ->
            has_keys entry_keys entry /\
            exists lines out,
              get inv "Line" (JArr []) ≫= py_iter = Ok lines /\
              get entry "lines" JNull = Ok (JArr out) /\
              Forall (has_keys line_keys) out /\ List.length out = List.length lines).
  { intros customer_map inv entry. unfold invoice_entry. intros H.
    destruct (get inv "CustomerRef" _); [rewrite res_bind_ok in H|done].
    destruct (get _ "value" _); [rewrite res_bind_ok in H|done].
    destruct (kmap_get _ _ _); [rewrite res_bind_ok in H|done].
    destruct (location_of_sale inv); [rewrite res_bind_ok in H|done].
    destruct (get inv "Line" _) as [ls|]; [rewrite res_bind_ok in H|done].
    destruct (py_iter ls) as [lines|] eqn:El; [rewrite res_bind_ok in H|done].
    destruct (mapR invoice_line lines) as [out|] eqn:Eo;
      [rewrite res_bind_ok in H|done].
    repeat match type of H with
           | (?m ≫= _) = Ok _ => destruct m; [rewrite res_bind_ok in H|done]
           end.
    injection H as <-. split; [by eexists|].
    exists lines, out. rewrite res_bind_ok, El.
    destruct (invoice_lines_keys lines out Eo) as [Hk Hl]. by split_and!. }
  split; [exact Hentry|].
  intros qb cs customer_map invs result H q1 q2 r1 r2 Hs Hq Hm Hs2 Hq2.
  rewrite (customer_invoices_run env service w qb H). fold q1 q2 r1.
  rewrite Hs, Hq. cbn [negb Z.eqb Pos.eqb]. rewrite res_bind_ok, Hm.
  change (calls (after_call w q1)) with (calls w ++ [q1]). fold r2.
  rewrite Hs2, Hq2. cbn [negb Z.eqb Pos.eqb fst]. rewrite res_bind_ok.
  destruct (mapR (invoice_entry customer_map) invs) as [entries|] eqn:E; [|done].
  rewrite res_bind_ok. intros [= <-]. exists entries. split; [done|].
  pose proof (mapR_length _ _ _ E) as Hall. split; [done|].
  clear -Hall Hentry. induction Hall as [|inv entry invs entries He _ IH]; [constructor|].
  constructor; [by apply (Hentry customer_map inv)|done].
Qed.

(** ** The further statements at sample data *)

(** X2 at the sample: the customers query is sent once, with the token. *)
Lemma X2_witness :
  calls (snd (get_customers sample_env (serve sample_upstream) (stored with_realm))) =
    [query_request sample_client "SELECT * FROM Customer"] /\
  (calls (snd (customer_invoices sample_env (serve sample_upstream) (stored with_realm))) =
     [query_request sample_client "SELECT Id, DisplayName, PrimaryEmailAddr FROM Customer"] \/
   calls (snd (customer_invoices sample_env (serve sample_upstream) (stored with_realm))) =
     [query_request sample_client "SELECT Id, DisplayName, PrimaryEmailAddr FROM Customer";
      query_request sample_client "SELECT * FROM Invoice"]).
Proof.
  destruct (X2_each_request_is_sent_once_with_the_bearer_token
              sample_env (serve sample_upstream) (stored with_realm) sample_client
              sample_client_built) as (_ & H2 & _ & _ & _ & H6 & _).
  exact (conj H2 H6).
Defined.

(** X3 at an upstream that is down. *)
Lemma X3_witness :
  get_customers sample_env (serve down_upstream) (stored with_realm) =
    (Ok (JObj [("error", JStr "boom")]),
     after_call (stored with_realm) (query_request sample_client "SELECT * FROM Customer")).
Proof.
  destruct (X3_list_handlers_surface_upstream_failure
              sample_env (serve down_upstream) (stored with_realm) sample_client
              sample_client_built) as [H _].
  apply H. by vm_compute.
Defined.

(** X4 at an upstream that is down, and at one whose invoices query fails. *)
Lemma X4_witness :
  calls (snd (customer_invoices sample_env (serve down_upstream) (stored with_realm))) =
    [query_request sample_client "SELECT Id, DisplayName, PrimaryEmailAddr FROM Customer"] /\
  fst (customer_invoices sample_env (serve invoices_down_upstream) (stored with_realm)) =
    Ok (JObj [("error", JStr "boom")]).
Proof.
  destruct (X4_joined_view_stops_at_the_first_failure
              sample_env (serve down_upstream) (stored with_realm) sample_client
              sample_client_built) as [H1 _].
  destruct (X4_joined_view_stops_at_the_first_failure
              sample_env (serve invoices_down_upstream) (stored with_realm) sample_client
              sample_client_built) as [_ H2].
  split.
  - rewrite H1; [done|by vm_compute].
  - erewrite H2; [done|reflexivity|vm_compute; reflexivity
                 |vm_compute; reflexivity|by vm_compute].
Defined.



(** X7 with an empty refresh token, and at a provider that is down. *)
Lemma X7_witness :
  refresh_access_token no_refresh_env (serve sample_upstream) (stored with_realm) =
    (Ok (JObj [("error", JStr "No hay refresh_token en el entorno")]), stored with_realm) /\
  fst (refresh_access_token sample_env (serve down_upstream) (stored with_realm)) =
    Ok (JObj [("error", JStr "boom")]).
Proof.
  destruct (X7_refresh_failures_leave_the_store
              no_refresh_env (serve sample_upstream) (stored with_realm)) as [H1 _].
  destruct (X7_refresh_failures_leave_the_store
              sample_env (serve down_upstream) (stored with_realm)) as [_ H2].
  split; [apply H1; by right|].
  destruct (H2 "rt-1" eq_refl) as [-> _]; [done|by vm_compute|done].
Defined.


(** X10 at the sample: after the refresh the client has the new token and
    the realm that was stored. *)
Lemma X10_witness :
  let w' := snd (refresh_access_token sample_env (serve sample_upstream) (stored with_realm)) in
  get_qb_client sample_env w' =
    (Ok (Some {| access_token := JStr "new"; realm_id := JStr "123";
                 base_url := "https://sandbox-quickbooks.api.intuit.com/v3/company" |}),
     w').
Proof.
  destruct (X10_client_after_refresh
              sample_env (serve sample_upstream) (stored with_realm) "rt-1"
              [("access_token", JStr "new")]
              [("realmId", JStr "123"); ("access_token", JStr "old")] (JStr "new"))
    as [H _];
    [reflexivity|done|reflexivity|vm_compute; reflexivity|vm_compute; reflexivity
    |reflexivity|reflexivity|].
  by apply (H (JStr "123")).
Defined.

(** X11 at a customer without an id and at one whose id is a list. *)
Lemma X11_witness :
  customer_invoices sample_env (serve no_id_upstream) (stored with_realm) =
    (Raise KeyError,
     after_call (stored with_realm)
       (query_request sample_client
          "SELECT Id, DisplayName, PrimaryEmailAddr FROM Customer")) /\
  ~ (exists customer_map,
       build_customer_map [JObj [("Id", JArr [JStr "1"])]] [] = Ok customer_map).
Proof.
  split.
  - destruct (X11_customer_lookup_is_built_iff_ids_are_keys
                sample_env (serve no_id_upstream) (stored with_realm)
                [JObj [("DisplayName", JStr "Ana")]]) as [_ H].
    destruct (H sample_client sample_client_built) as (e & _ & He);
      [by vm_compute|vm_compute; reflexivity|reflexivity|].
    rewrite He. f_equal. revert He. vm_compute. by intros [= <-].
  - destruct (X11_customer_lookup_is_built_iff_ids_are_keys
                sample_env (serve no_id_upstream) (stored with_realm)
                [JObj [("Id", JArr [JStr "1"])]]) as [H _].
    intros Hm. apply H in Hm. vm_compute in Hm. discriminate.
Defined.

(** X12 at two customers with the same id. *)
Lemma X12_witness :
  exists customer_map,
    build_customer_map twin_customers [] = Ok customer_map /\
    kmap_lookup (JStr "1") customer_map =
      Some (JObj [("Id", JStr "1"); ("DisplayName", JStr "Ana Maria")]) /\
    kmap_lookup (JStr "3") customer_map = None.
Proof.
  eexists. split; [reflexivity|]. split.
  - by rewrite (X12_customer_lookup_gives_the_last_customer_with_the_id
                  twin_customers _ (JStr "1") eq_refl).
  - by rewrite (X12_customer_lookup_gives_the_last_customer_with_the_id
                  twin_customers _ (JStr "3") eq_refl).
Defined.


(** X14 at an invoice whose [CustomerRef] is [null], and at one whose
    customer id is a list. *)
Lemma X14_witness :
  invoice_entry [] (JObj [("CustomerRef", JNull)]) = Raise AttributeError /\
  invoice_entry [] (JObj [("CustomerRef", JObj [("value", JArr [JNum 1])])]) =
    Raise TypeError.
Proof.
  destruct (X14_ill_typed_customer_reference_raises []) as (_ & H2 & H3).
  split.
  - by apply (H2 _ JNull).
  - by apply (H3 _ [("value", JArr [JNum 1])] (JArr [JNum 1])).
Defined.

(** X15 at the stored sample record and two environments of different
    companies. *)
Lemma X15_witness :
  get_customers sample_env (serve sample_upstream) (stored with_realm) =
  get_customers other_env (serve sample_upstream) (stored with_realm).
Proof.
  destruct (X15_stored_realm_makes_the_environment_irrelevant
              (serve sample_upstream) (stored with_realm)
              [("realmId", JStr "123"); ("access_token", JStr "old")])
    with (env1 := sample_env) (env2 := other_env) as (_ & _ & H & _);
    [vm_compute; reflexivity|reflexivity|exact H].
Defined.


(** X18 at a token file written by hand. *)
Lemma X18_witness :
  let w' := snd (save_tokens (JArr [JNum 1; JNum 2]) spaced_store) in
  tokens_file w' = Some "[1, 2]" /\
  load_tokens w' = (Ok (JArr [JNum 1; JNum 2]), w').
Proof.
  split; [reflexivity|].
  apply (X18_saving_what_was_loaded_keeps_the_record spaced_store).
  vm_compute. reflexivity.
Defined.


(** X21 at a customers list with a string in it. *)
Lemma X21_witness :
  get_customers sample_env (serve mixed_upstream) (stored with_realm) =
    (Raise AttributeError,
     after_call (stored with_realm) (query_request sample_client "SELECT * FROM Customer")).
Proof.
  destruct (X21_a_record_that_is_not_an_object_raises
              sample_env (serve mixed_upstream) (stored with_realm) sample_client
              sample_client_built) as [H _].
  apply (H [JObj [("Id", JStr "1")]; JStr "2"] (JStr "2"));
    [reflexivity|vm_compute; reflexivity|by apply list_elem_of_further, list_elem_of_here
    |reflexivity].
Defined.

(** X22 at two environments that differ in [QBO_BASE] and [REDIRECT_URI]. *)
Lemma X22_witness :
  let env' := {| CLIENT_ID := Some "client"; CLIENT_SECRET := Some "secret";
                 REDIRECT_URI := Some "http://localhost/callback";
                 QBO_BASE := Some "https://quickbooks.api.intuit.com";
                 COMPANY_ID := Some "9130"; REFRESH_TOKEN := Some "rt-1" |} in
  get_customers sample_env (serve sample_upstream) (stored without_realm) =
    get_customers env' (serve sample_upstream) (stored without_realm) /\
  refresh_access_token sample_env (serve sample_upstream) no_tokens =
    refresh_access_token env' (serve sample_upstream) no_tokens.
Proof.
  intros env'.
  destruct (X22_unused_environment_variables
              (serve sample_upstream) (stored without_realm) sample_env env')
    as [H1 _].
  destruct (X22_unused_environment_variables
              (serve sample_upstream) no_tokens sample_env env') as [_ H2].
  destruct (H1 eq_refl) as (_ & H & _).
  exact (conj H (H2 eq_refl eq_refl eq_refl)).
Defined.

(** X23 at the joined view of the sample. *)
Lemma X23_witness :
  exists entries,
    fst (customer_invoices sample_env (serve sample_upstream) (stored with_realm)) =
      Ok (JObj [("customer_invoices", JArr entries)]) /\
    List.length entries = 2%nat /\
    Forall (has_keys entry_keys) entries.
Proof.
  destruct (X23_entries_have_a_fixed_shape
              sample_env (serve sample_upstream) (stored with_realm)) as [_ H].
  edestruct (H sample_client) as (entries & He & Hall & Hk);
    [exact sample_client_built|reflexivity|vm_compute; reflexivity
    |vm_compute; reflexivity|reflexivity|vm_compute; reflexivity
    |vm_compute; reflexivity|].
  exists entries. split; [rewrite <- He; vm_compute; reflexivity|]. split; [|done].
  by rewrite <- (Forall2_length _ _ _ Hall).
Defined.
